(** * Chirp-mass scan and neural-spline-flow builders of dingo

  A shallow embedding of
  - [binary_neutron_stars/scripts/chirp_mass_scan.py] (the scan grids, the
    batched network input, the in-place time translation of an event
    dataset, the prior filter and the trigger selection of [main]) and
  - [dingo/core/nn/nsf.py] (the dispatch of [create_base_transform] and
    [FlowWrapper.sample]),
  followed by the properties of these functions.

  Python exceptions are values of [exn] carried by the [result] monad.
  Python floats are kept behind the interface [PyFloat], which has two
  instances: IEEE binary64 [float], the arithmetic the interpreter
  performs, and exact rationals [Q], the unrounded values to compare it
  with.  The laws are proved for every instance or for binary64. *)

From Stdlib Require Import ZArith QArith Qround Lia.
From Stdlib Require Import Floats.PrimFloat Floats.FloatOps Floats.SpecFloat.
From Stdlib Require Import Floats.FloatAxioms.
From stdpp Require Import base option list gmap strings.

Open Scope Z_scope.

(** ** Python exceptions *)

Module Py.

Inductive exn : Type :=
| IndexError
| KeyError (key : string)
| ValueError
| ZeroDivisionError
| OverflowError
| RuntimeError.

Inductive result (A : Type) : Type :=
| Ok (a : A)
| Raise (e : exn).
Arguments Ok {A} a.
Arguments Raise {A} e.

#[export] Instance result_ret : MRet result := λ A a, Ok a.
#[export] Instance result_bind : MBind result :=
  λ A B f m, match m with Ok a => f a | Raise e => Raise e end.

(** [d[k]] on a dict with string keys. *)
Definition getitem {V : Type} (d : gmap string V) (k : string) : result V :=
  match d !! k with
  | Some v => Ok v
  | None => Raise (KeyError k)
  end.

(** [a[i]] on a sequence, for an index that is not negative. *)
Definition index {A : Type} (a : list A) (i : nat) : result A :=
  match a !! i with
  | Some v => Ok v
  | None => Raise IndexError
  end.

End Py.
Import Py.

(** ** Floats *)

(** The float operations the two source files use.  [fquot] is the IEEE
  quotient (what numpy computes); Python's own [/] is [truediv] below. *)
Class PyFloat (F : Type) : Type := {
  of_int : Z → F;
  fadd : F → F → F;
  fsub : F → F → F;
  fmul : F → F → F;
  fquot : F → F → F;
  feqb : F → F → bool;
  fleb : F → F → bool;
  is_nan : F → bool;
  (** [x > -np.inf] *)
  gt_neg_inf : F → bool;
  (** [int(x)]: truncation towards zero *)
  to_int : F → result Z;
  (** [math.ceil(x)] *)
  ceil : F → result Z;
}.
Global Hint Mode PyFloat ! : typeclass_instances.

(** Python's [x / y] on floats. *)
Definition truediv {F} `{PyFloat F} (x y : F) : result F :=
  if feqb y (of_int 0) then Raise ZeroDivisionError else Ok (fquot x y).

(** Exact rationals: every value is finite, nothing is rounded. *)
Definition Qtruncate (q : Q) : Z := Z.quot (Qnum q) (Zpos (Qden q)).

#[export] Instance Q_float : PyFloat Q := {|
  of_int := inject_Z;
  fadd := Qplus;
  fsub := Qminus;
  fmul := Qmult;
  fquot := Qdiv;
  feqb := Qeq_bool;
  fleb := Qle_bool;
  is_nan := λ _, false;
  gt_neg_inf := λ _, true;
  to_int := λ q, Ok (Qtruncate q);
  ceil := λ q, Ok (Qceiling q);
|}.

(** IEEE binary64.  A finite float is [±m·2^e]; [int] and [math.ceil] raise
  [OverflowError] on an infinity and [ValueError] on a NaN. *)
Module IEEE.

Definition of_Z (z : Z) : float :=
  SF2Prim (binary_normalize 53 1024 z 0 false).

Definition signed (s : bool) (m : positive) : Z :=
  if s then Z.neg m else Z.pos m.

Definition trunc (x : float) : result Z :=
  match Prim2SF x with
  | S754_zero _ => Ok 0
  | S754_infinity _ => Raise OverflowError
  | S754_nan => Raise ValueError
  | S754_finite s m e => Ok (signed s (1%positive) * Z.shiftl (Z.pos m) e)
  end.

Definition ceil (x : float) : result Z :=
  match Prim2SF x with
  | S754_zero _ => Ok 0
  | S754_infinity _ => Raise OverflowError
  | S754_nan => Raise ValueError
  | S754_finite s m e => Ok (- Z.shiftl (- signed s m) e)
  end.

Definition is_nan (x : float) : bool := negb (PrimFloat.eqb x x).

End IEEE.

#[export] Instance IEEE_float : PyFloat float := {|
  of_int := IEEE.of_Z;
  fadd := PrimFloat.add;
  fsub := PrimFloat.sub;
  fmul := PrimFloat.mul;
  fquot := PrimFloat.div;
  feqb := PrimFloat.eqb;
  fleb := PrimFloat.leb;
  is_nan := IEEE.is_nan;
  gt_neg_inf := λ x, PrimFloat.ltb neg_infinity x;
  to_int := IEEE.trunc;
  ceil := IEEE.ceil;
|}.

(** ** The numpy functions the scan calls *)

Module Numpy.
Section Numpy.
Context {F : Type} `{PyFloat F}.

(** [np.linspace(start, stop, num)] with [endpoint=True]: the samples are
    [arange(0, num) * step + start] with [step = (stop - start) / (num - 1)],
    the last one overwritten with [stop]; a zero step is recomputed as
    [(arange / div) * delta]; with fewer than two samples there is no step
    and the samples are [arange * delta + start]. *)
Definition linspace (start stop : F) (num : Z) : result (list F) :=
  if num <? 0 then Raise ValueError
  else
    let div := num - 1 in
    let delta := fsub stop start in
    let y := of_int <$> seqZ 0 num in
    let y :=
      if 0 <? div then
        let step := fquot delta (of_int div) in
        if feqb step (of_int 0)
        then (λ v, fmul (fquot v (of_int div)) delta) <$> y
        else (λ v, fmul v step) <$> y
      else (λ v, fmul v delta) <$> y in
    let y := (λ v, fadd v start) <$> y in
    Ok (if 1 <? num then <[Z.to_nat (num - 1) := stop]> y else y).

End Numpy.
End Numpy.

(** ** chirp_mass_scan.py *)

(** A bilby prior, as far as the scan reads it: an object that
    [PriorDict(...)] has built, with its two bounds.  The construction
    itself belongs to bilby; the priors it accepts have
    [minimum < maximum]. *)
Record Prior (F : Type) : Type := { minimum : F; maximum : F }.
Arguments minimum {F} p.
Arguments maximum {F} p.

(** The entries of the model metadata the scan reads:
  [dataset_settings.intrinsic_prior],
  [train_settings.data.gnpe_chirp.kernel] and
  [train_settings.data.extrinsic_prior], each a dict of priors by name. *)
Record Metadata (F : Type) : Type := {
  intrinsic_prior : gmap string (Prior F);
  gnpe_chirp_kernel : gmap string (Prior F);
  extrinsic_prior : gmap string (Prior F);
}.
Arguments intrinsic_prior {F} m.
Arguments gnpe_chirp_kernel {F} m.
Arguments extrinsic_prior {F} m.

Section Grids.
Context {F : Type} `{PyFloat F}.

Definition get_scan_chirp_masses (model_metadata : Metadata F)
    (overlap_factor : F) : result (list F) :=
  prior ← getitem (intrinsic_prior model_metadata) "chirp_mass";
  kernel ← getitem (gnpe_chirp_kernel model_metadata) "chirp_mass";
  let prior_range := fsub (maximum prior) (minimum prior) in
  let kernel_range := fsub (maximum kernel) (minimum kernel) in
  ratio ← truediv prior_range kernel_range;
  num ← ceil (fmul ratio overlap_factor);
  Numpy.linspace
    (fsub (minimum prior) (minimum kernel))
    (fsub (maximum prior) (maximum kernel))
    num.

(** The result is [[None]] or the array of offsets; an element is an
    optional float either way. *)
Definition get_scan_times (model_metadata : Metadata F)
    (time_scan_range : option (F * F)) (overlap_factor : F)
    : result (list (option F)) :=
  match time_scan_range with
  | None => Ok [None]
  | Some (t_min, t_max) =>
      prior ← getitem (extrinsic_prior model_metadata) "geocent_time";
      let delta_t := fsub (maximum prior) (minimum prior) in
      delta_t ← truediv delta_t overlap_factor;
      ratio ← truediv (fsub t_max t_min) delta_t;
      n ← to_int ratio;
      let N := n + 1 in
      dt ← Numpy.linspace t_min t_max N;
      Ok (Some <$> (dt : list F))
  end.

End Grids.

(** ** More of numpy, torch and pandas *)

Module Arrays.
Section Arrays.
Context {F : Type} `{PyFloat F}.

(** [np.argmax] on a float array, as numpy's inner loop runs it: the running
    maximum is replaced when [not (x <= max)], and a NaN ends the search. *)
Fixpoint argmax_from (mp : F) (max_ind i : nat) (ip : list F) : nat :=
  match ip with
  | [] => max_ind
  | x :: ip =>
      if negb (fleb x mp)
      then if is_nan x then i else argmax_from x i (S i) ip
      else argmax_from mp max_ind (S i) ip
  end.

Definition argmax (a : list F) : result nat :=
  match a with
  | [] => Raise ValueError
  | mp :: ip => Ok (if is_nan mp then 0%nat else argmax_from mp 0 1 ip)
  end.

(** [np.where(mask)[0]]: the positions that hold [True], ascending. *)
Fixpoint where_from (i : nat) (mask : list bool) : list nat :=
  match mask with
  | [] => []
  | b :: mask => (if b then [i] else []) ++ where_from (S i) mask
  end.

Definition where_ (mask : list bool) : list nat := where_from 0 mask.

(** [a[indices]] with an index array, also [DataFrame.iloc[indices]]. *)
Definition take_ {A : Type} (a : list A) (indices : list nat) : result (list A) :=
  mapM (index a) indices.

(** [a.repeat(n)]: every element [n] times in a row. *)
Definition repeat_ {A : Type} (a : list A) (n : Z) : result (list A) :=
  if n <? 0 then Raise ValueError
  else Ok (a ≫= replicate (Z.to_nat n)).

(** [a + b] on one-dimensional arrays: entry by entry when the lengths
    agree, an array of length one being broadcast over the other. *)
Definition add_ (a b : list F) : result (list F) :=
  if bool_decide (length a = length b) then Ok (zip_with fadd a b)
  else match a, b with
       | [x], _ => Ok (fadd x <$> b)
       | _, [y] => Ok ((λ x, fadd x y) <$> a)
       | _, _ => Raise ValueError
       end.

(** [torch.zeros((N, *row.shape))]: [N] rows of zeros shaped like [row]. *)
Definition zeros {T : Type} (zeros_like : T → T) (N : Z) (row : T)
    : result (list T) :=
  if N <? 0 then Raise RuntimeError
  else Ok (replicate (Z.to_nat N) (zeros_like row)).

(** A bound of a Python slice over [len] rows. *)
Definition slice_bound (len i : Z) : Z :=
  if i <? 0 then Z.max 0 (len + i) else Z.min i len.

(** [buf[lower:upper] = v] with [v] one row: it is broadcast over the rows
    of the slice. *)
Definition slice_assign {T : Type} (buf : list T) (lower upper : Z) (v : T)
    : list T :=
  let len := Z.of_nat (length buf) in
  let lo := slice_bound len lower in
  let hi := Z.max lo (slice_bound len upper) in
  take (Z.to_nat lo) buf ++ replicate (Z.to_nat (hi - lo)) v
    ++ drop (Z.to_nat hi) buf.

(** [enumerate(a)] *)
Definition enumerate {A : Type} (a : list A) : list (Z * A) :=
  zip (seqZ 0 (Z.of_nat (length a))) a.

End Arrays.
End Arrays.

(** What the pre-processing transform returns: [out["waveform"]] and
    [out["context_parameters"]]. *)
Record Out (T : Type) : Type := {
  waveform : T;
  context_parameters : T;
}.
Arguments waveform {T} o.
Arguments context_parameters {T} o.

Section GenerateData.
Context {F : Type} `{PyFloat F}.
(** [Data] is [event_dataset.data]; [T] is the type of the tensors the
    transform returns.  They have one shape, fixed by the model's domain, so
    that writing one into a row of the buffer copies it. *)
Context {Data T : Type}.
(** [transform data x] is
    [transform({**data, **params_dict(x)})]. *)
Variable transform : Data → F → Out T.
Variable zeros_like : T → T.

Definition generate_data_step (data : Data) (num_samples : Z)
    (bufs : list T * list T) (item : Z * F) : list T * list T :=
  let '(idx, chirp_mass) := item in
  let out := transform data chirp_mass in
  let lower := idx * num_samples in
  let upper := (idx + 1) * num_samples in
  (Arrays.slice_assign bufs.1 lower upper (waveform out),
   Arrays.slice_assign bufs.2 lower upper (context_parameters out)).

Definition generate_data_for_scan (data : Data) (chirp_masses : list F)
    (num_samples : Z) : result (list T * list T) :=
  let N := Z.of_nat (length chirp_masses) * num_samples in
  first ← index chirp_masses 0;
  let out := transform data first in
  waveform ← Arrays.zeros zeros_like N (waveform out);
  context_parameters ← Arrays.zeros zeros_like N (context_parameters out);
  Ok (foldl (generate_data_step data num_samples)
        (waveform, context_parameters) (Arrays.enumerate chirp_masses)).

End GenerateData.

(** An [EventDataset] object: [data] holds the dicts ["waveform"] and
    ["asds"] of per-detector frequency series, [settings] the floats
    ["f_min"], ["f_max"], ["T"] and ["time_event"]. *)
Record EventDataset (F W : Type) : Type := {
  data : gmap string (gmap string W);
  settings : gmap string F;
}.
Arguments data {F W} e.
Arguments settings {F W} e.

(** Objects live in a store and are passed by reference. *)
Definition loc : Type := nat.

(** A computation on a store [S] that returns an [A] or raises.  A raised
    exception ends the script, so no store is kept in that case. *)
Definition M (S A : Type) : Type := S → result (A * S).

#[export] Instance M_ret {S : Type} : MRet (M S) := λ A a s, Ok (a, s).
#[export] Instance M_bind {S : Type} : MBind (M S) :=
  λ A B f m s, match m s with Ok (a, s') => f a s' | Raise e => Raise e end.

Definition lift {S A : Type} (r : result A) : M S A :=
  λ s, match r with Ok a => Ok (a, s) | Raise e => Raise e end.

(** A row of the sample table and a dict of parameter arrays. *)
Abbreviation Row F := (gmap string F).
Abbreviation Samples F := (gmap string (list F)).

(** What one pass of the loop of [main] prints. *)
Record Report (F : Type) : Type := {
  report_dt : option F;
  chirp_mass_trigger : F;
  snr_trigger : F;
  gps_trigger : F;
}.
Arguments report_dt {F} r.
Arguments chirp_mass_trigger {F} r.
Arguments snr_trigger {F} r.
Arguments gps_trigger {F} r.

Section Scan.
Context {F : Type} `{PyFloat F}.
(** [W] is a frequency series of one detector, [T] a tensor of the network
    input, [Smp] the array of samples the model returns. *)
Context {W T Smp : Type}.

Abbreviation Heap := (list (EventDataset F W)).

(** Collaborators that are not part of the two files. *)
(** [FrequencyDomain(f_min, f_max, delta_f).time_translate_data(v, dt)] *)
Variable time_translate_data : F → F → F → W → F → W.
(** The content of an event data file, as [EventDataset(path)] reads it. *)
Variable event_file : string → result (EventDataset F W).
(** [transform_pre] of [get_transforms], applied to the data and a chirp
    mass, and the zero tensor of a given shape. *)
Variable transform_pre : gmap string (gmap string W) → F → Out T.
Variable zeros_like : T → T.
(** [model.sample] on the two tensors of the batch, and
    [transform_post] with its [parameters] entry taken. *)
Variable model_sample : list T → list T → result Smp.
Variable transform_post : Smp → result (Samples F).
(** [prior.ln_prob(theta, axis=0)] and, for the likelihood built on the
    event data, [likelihood.log_likelihood_multi(theta)] with
    [return_aux_snr]: one pair (log-likelihood, SNR) per row. *)
Variable ln_prob : list (Row F) → list F.
Variable log_likelihood_multi :
  gmap string (gmap string W) → list (Row F) → list (F * F).

Definition deref (l : loc) : M Heap (EventDataset F W) :=
  λ h, match h !! l with
       | Some o => Ok (o, h)
       | None => Raise RuntimeError
       end.

Definition store (l : loc) (o : EventDataset F W) : M Heap unit :=
  λ h, Ok ((), <[l := o]> h).

(** [EventDataset(file_name)]: a new object with the content of the file. *)
Definition EventDataset_new (file_name : string) : M Heap loc :=
  λ h, match event_file file_name with
       | Ok o => Ok (length h, h ++ [o])
       | Raise e => Raise e
       end.

Definition time_translate_event_dataset (event_dataset : loc) (dt : F)
    : M Heap unit :=
  o ← deref event_dataset;
  let s := settings o in
  f_min ← lift (getitem s "f_min");
  f_max ← lift (getitem s "f_max");
  T_ ← lift (getitem s "T");
  delta_f ← lift (truediv (of_int 1) T_);
  let domain := time_translate_data f_min f_max delta_f in
  old ← lift (getitem (data o) "waveform");
  let new := (λ v, domain v dt) <$> old in
  store event_dataset
    {| data := <["waveform" := new]> (data o); settings := settings o |};;
  o ← deref event_dataset;
  time_event ← lift (getitem (settings o) "time_event");
  store event_dataset
    {| data := data o;
       settings := <["time_event" := fsub time_event dt]> (settings o) |}.

(** [theta[name]] on the table of rows. *)
Definition column (theta : list (Row F)) (name : string) : result (list F) :=
  mapM (λ row : Row F, getitem row name) theta.

(** [theta[name] = values] with one value per row. *)
Definition set_column (theta : list (Row F)) (name : string)
    (values : list F) : result (list (Row F)) :=
  if bool_decide (length theta = length values)
  then Ok (zip_with (λ (row : Row F) v, <[name := v]> row) theta values)
  else Raise ValueError.

(** [pd.DataFrame(samples)]: the arrays become the columns, and must have
    one length. *)
Definition DataFrame (samples : Samples F) : result (list (Row F)) :=
  let n := default 0%nat (head (length <$> (map_to_list samples).*2)) in
  if bool_decide (map_Forall (λ _ col, length col = n) samples)
  then Ok ((λ i, omap (λ col : list F, col !! i) samples) <$> seq 0 n)
  else Raise ValueError.

(** Lines 236-237: the chirp mass of a sample is the grid value of its
    block plus the offset the network drew. *)
Definition with_chirp_mass (chirp_masses : list F) (num_samples : Z)
    (samples : Samples F) : result (Samples F) :=
  delta_chirp_mass ← getitem samples "delta_chirp_mass";
  let samples := delete "delta_chirp_mass" samples in
  repeated ← Arrays.repeat_ chirp_masses num_samples;
  chirp_mass ← Arrays.add_ repeated delta_chirp_mass;
  Ok (<["chirp_mass" := chirp_mass]> samples).

(** Lines 247-250: rows outside the support of the prior are dropped. *)
Definition prior_filter (theta : list (Row F)) (log_prior : list F)
    : result (list (Row F) * list F) :=
  let indices := Arrays.where_ (gt_neg_inf <$> log_prior) in
  theta ← Arrays.take_ theta indices;
  log_prior ← Arrays.take_ log_prior indices;
  Ok (theta, log_prior).

(** Lines 260-266: the trigger. *)
Definition select_trigger (dt : option F) (theta : list (Row F))
    (log_likelihoods snrs : list F) (settings : gmap string F)
    : result (Report F) :=
  chirp_mass ← column theta "chirp_mass";
  i ← Arrays.argmax log_likelihoods;
  chirp_mass_trigger ← index chirp_mass i;
  geocent_time ← column theta "geocent_time";
  i ← Arrays.argmax log_likelihoods;
  time_trigger ← index geocent_time i;
  i ← Arrays.argmax log_likelihoods;
  snr ← index snrs i;
  time_event ← getitem settings "time_event";
  Ok {| report_dt := dt;
        chirp_mass_trigger := chirp_mass_trigger;
        snr_trigger := snr;
        gps_trigger := fadd time_event time_trigger |}.

(** Lines 246-286: from the samples to the scored table of one pass. *)
Definition score_samples (dt : option F) (o : EventDataset F W)
    (samples : Samples F) : result (Report F * list (Row F)) :=
  theta ← DataFrame samples;
  let log_prior := ln_prob theta in
  '(theta, log_prior) ← prior_filter theta log_prior;
  let scored := log_likelihood_multi (data o) theta in
  let log_likelihoods := scored.*1 in
  let snrs := scored.*2 in
  log_probs ← Arrays.add_ log_likelihoods log_prior;
  report ← select_trigger dt theta log_likelihoods snrs (settings o);
  theta ← set_column theta "log_likelihood" log_likelihoods;
  theta ← set_column theta "snr" snrs;
  time_event ← getitem (settings o) "time_event";
  Ok (report,
      (λ row : Row F, <["time_event" := time_event]> row)
        <$> (theta : list (Row F))).

(** The body of the loop of [main] for one trial offset [dt]. *)
Definition scan_pass (event_data : string) (chirp_masses : list F)
    (num_samples : Z) (dt : option F) : M Heap (Report F * list (Row F)) :=
  event_dataset ← EventDataset_new event_data;
  match dt with
  | Some dt => time_translate_event_dataset event_dataset dt
  | None => mret ()
  end;;
  o ← deref event_dataset;
  '(waveform, context_parameters) ← lift
    (generate_data_for_scan transform_pre zeros_like (data o) chirp_masses
       num_samples);
  samples ← lift (model_sample waveform context_parameters);
  samples ← lift (transform_post samples);
  samples ← lift (with_chirp_mass chirp_masses num_samples samples);
  lift (score_samples dt o samples).

(** [main], without the plots and the pickle: the reports printed and the
    table [theta_out]. *)
Definition main (model_metadata : Metadata F) (event_data : string)
    (num_samples : Z) (time_scan_range : option (F * F))
    : M Heap (list (Report F) * list (Row F)) :=
  chirp_masses ← lift (get_scan_chirp_masses model_metadata (of_int 2));
  times ← lift (get_scan_times model_metadata time_scan_range (of_int 1));
  foldl
    (λ (acc : M Heap (list (Report F) * list (Row F))) dt,
       '(reports, theta_out) ← acc;
       '(report, theta) ← scan_pass event_data chirp_masses num_samples dt;
       mret (reports ++ [report], theta_out ++ theta))
    (mret ([], [])) times.

End Scan.

(** ** nsf.py *)

Module Nsf.

(** The transforms of nflows, as the data their constructors are given.
    [R] is the type of the real hyperparameters, [Act] of the activation
    functions. *)
Record ResidualNetFn (R Act : Type) : Type := {
  hidden_features : Z;
  context_features : option Z;
  num_blocks : Z;
  activation_fn : Act;
  net_dropout_probability : R;
  use_batch_norm : bool;
}.
Arguments Build_ResidualNetFn {R Act} _ _ _ _ _ _.

#[local] Unset Elimination Schemes.
Inductive Transform (R Act : Type) : Type :=
| RandomPermutation (features : Z)
| LULinear (features : Z) (identity_init : bool)
| CompositeTransform (transforms : list (Transform R Act))
| PiecewiseRationalQuadraticCouplingTransform
    (mask : list Z) (transform_net_create_fn : ResidualNetFn R Act)
    (num_bins : Z) (tails : string) (tail_bound : R)
    (apply_unconditional_transform : bool)
| MaskedPiecewiseRationalQuadraticAutoregressiveTransform
    (features hidden_features : Z) (context_features : option Z)
    (num_bins : Z) (tails : string) (tail_bound : R) (num_blocks : Z)
    (use_residual_blocks random_mask : bool) (activation : Act)
    (dropout_probability : R) (use_batch_norm : bool).
#[local] Set Elimination Schemes.
Arguments RandomPermutation {R Act} features.
Arguments LULinear {R Act} features identity_init.
Arguments CompositeTransform {R Act} transforms.
Arguments PiecewiseRationalQuadraticCouplingTransform {R Act} _ _ _ _ _ _.
Arguments MaskedPiecewiseRationalQuadraticAutoregressiveTransform
  {R Act} _ _ _ _ _ _ _ _ _ _ _ _.

(** The keyword arguments of [create_base_transform]. *)
Record BaseTransformKwargs (R : Type) : Type := {
  hidden_dim : Z;
  num_transform_blocks : Z;
  activation : string;
  dropout_probability : R;
  batch_norm : bool;
  num_bins : Z;
  tail_bound : R;
  apply_unconditional_transform : bool;
  base_transform_type : string;
}.
Arguments hidden_dim {R} _.
Arguments num_transform_blocks {R} _.
Arguments activation {R} _.
Arguments dropout_probability {R} _.
Arguments batch_norm {R} _.
Arguments num_bins {R} _.
Arguments tail_bound {R} _.
Arguments apply_unconditional_transform {R} _.
Arguments base_transform_type {R} _.

Section Builders.
Context {R Act : Type}.
(** [torchutils.get_activation_function_from_string] and
    [nflows.utils.create_alternating_binary_mask]. *)
Variable get_activation_function_from_string : string → result Act.
Variable create_alternating_binary_mask : Z → bool → list Z.

Definition create_linear_transform (param_dim : Z) : Transform R Act :=
  CompositeTransform
    [RandomPermutation param_dim; LULinear param_dim true].

Definition create_base_transform (i param_dim : Z) (context_dim : option Z)
    (kw : BaseTransformKwargs R) : result (Transform R Act) :=
  activation_fn ← get_activation_function_from_string (activation kw);
  if String.eqb (base_transform_type kw) "rq-coupling" then
    let mask :=
      if param_dim =? 1 then [1]
      else create_alternating_binary_mask param_dim (i mod 2 =? 0) in
    Ok (PiecewiseRationalQuadraticCouplingTransform
          mask
          (Build_ResidualNetFn (hidden_dim kw) context_dim
             (num_transform_blocks kw) activation_fn
             (dropout_probability kw) (batch_norm kw))
          (num_bins kw) "linear" (tail_bound kw)
          (apply_unconditional_transform kw))
  else if String.eqb (base_transform_type kw) "rq-autoregressive" then
    Ok (MaskedPiecewiseRationalQuadraticAutoregressiveTransform
          param_dim (hidden_dim kw) context_dim (num_bins kw) "linear"
          (tail_bound kw) (num_transform_blocks kw) true false
          activation_fn (dropout_probability kw) (batch_norm kw))
  else Raise ValueError.

Definition create_transform (num_flow_steps param_dim : Z)
    (context_dim : option Z) (base_transform_kwargs : BaseTransformKwargs R)
    : result (Transform R Act) :=
  steps ← mapM
    (λ i, base ← create_base_transform i param_dim context_dim
                   base_transform_kwargs;
          Ok (CompositeTransform [create_linear_transform param_dim; base]))
    (seqZ 0 num_flow_steps);
  Ok (CompositeTransform
        ((steps : list (Transform R Act))
           ++ [create_linear_transform param_dim])).

End Builders.

(** A tensor: its shape and its entries in row-major order. *)
Record Tensor (A : Type) : Type := {
  shape : list nat;
  flat : list A;
}.
Arguments Build_Tensor {A} _ _.
Arguments shape {A} t.
Arguments flat {A} t.

(** [torch.squeeze(t)]: every dimension of size one is dropped. *)
Definition squeeze {A : Type} (t : Tensor A) : Tensor A :=
  {| shape := filter (λ d, d ≠ 1%nat) (shape t); flat := flat t |}.

(** What the flow is given as context: the tuple [x] of the caller, or the
    output of the embedding network. *)
Inductive Context (X E : Type) : Type :=
| Tuple (x : list X)
| Embedded (e : E).
Arguments Tuple {X E} x.
Arguments Embedded {X E} e.

(** A [FlowWrapper]: the wrapped flow, as its methods [sample] and
    [log_prob], and the optional embedding network. *)
Record FlowWrapper (X E Y A : Type) : Type := {
  flow_sample : Z → Context X E → result (Tensor A);
  flow_log_prob : Y → Context X E → result (Tensor A);
  embedding_net : option (list X → result E);
}.
Arguments flow_sample {X E Y A} f.
Arguments flow_log_prob {X E Y A} f.
Arguments embedding_net {X E Y A} f.

Section FlowWrapper.
Context {X E Y A : Type}.

(** The first two lines of [log_prob] and of [sample]. *)
Definition embed (self : FlowWrapper X E Y A) (x : list X)
    : result (Context X E) :=
  match embedding_net self with
  | Some net => e ← net x; Ok (Embedded e)
  | None => Ok (Tuple x)
  end.

Definition log_prob (self : FlowWrapper X E Y A) (y : Y) (x : list X)
    : result (Tensor A) :=
  x ← embed self x;
  flow_log_prob self y x.

Definition sample (self : FlowWrapper X E Y A) (x : list X)
    (num_samples : Z) : result (Tensor A) :=
  x ← embed self x;
  t ← flow_sample self num_samples x;
  Ok (squeeze t).

Definition forward (self : FlowWrapper X E Y A) (y : Y) (x : list X)
    : result (Tensor A) :=
  log_prob self y x.

End FlowWrapper.

End Nsf.

(** ** Notions used to state the properties *)

(** The rows of a block of the batch: one output of the transform, [n]
    times. *)
Definition block {F Data T : Type} (transform : Data → F → Out T) (n : nat)
    (f : Out T → T) (data : Data) (x : F) : list T :=
  replicate n (f (transform data x)).

(** The rows of the sample table that lie in the support of the prior, each
    paired with its log-prior. *)
Definition kept {F : Type} `{PyFloat F} (theta : list (Row F))
    (log_prior : list F) : list (Row F * F) :=
  filter (λ p, gt_neg_inf p.2) (zip theta log_prior).

(** The value of an event dataset [o] after its translation by [dt], given
    the settings and the waveform that were read from it. *)
Definition translated {F : Type} `{PyFloat F} {W : Type}
    (time_translate_data : F → F → F → W → F → W) (o : EventDataset F W)
    (dt f_min f_max T_ time_event : F) (old : gmap string W)
    : EventDataset F W :=
  {| data :=
       <["waveform" :=
           (λ v, time_translate_data f_min f_max (fquot (of_int 1) T_) v dt)
             <$> old]> (data o);
     settings := <["time_event" := fsub time_event dt]> (settings o) |}.

(** A grid of rationals in arithmetic progression: the entry of index [i]
    is [first + i * step]. *)
Definition evenly_spaced (first step : Q) (grid : list Q) : Prop :=
  ∀ (i : nat) (x : Q),
    grid !! i = Some x → (x == first + inject_Z (Z.of_nat i) * step)%Q.

(** Binary64 values by their class: a NaN; a zero or a finite number. *)
Definition SFis_nan (x : spec_float) : bool :=
  match x with S754_nan => true | _ => false end.


(** The comparison of two finite numbers of one sign [±m·2^e], mantissas
    being normalised. *)
Definition lex (e1 : Z) (m1 : positive) (e2 : Z) (m2 : positive)
    : comparison :=
  match (e1 ?= e2)%Z with
  | Lt => Lt
  | Gt => Gt
  | Eq => (m1 ?= m2)%positive
  end.

(** Whether a computation returned. *)
Definition is_Ok {A : Type} (r : result A) : bool :=
  match r with Ok _ => true | Raise _ => false end.

(** [t.numel()]: the number of entries of a tensor of the given shape. *)
Definition numel (shape : list nat) : nat := foldr Nat.mul 1%nat shape.

(** Small collaborators on which the functions can be run. *)
Module Fixture.

(** A transform that returns the chirp mass it was given. *)
Definition echo (_ : unit) (x : float) : Out float :=
  {| waveform := x; context_parameters := x |}.

Definition zero (_ : float) : float := 0%float.

Definition grid3 : list float := [1.5%float; 2.5%float; 3.5%float].

(** A sample table of [n] rows: row [i] has chirp mass [i + 1] and local
    coalescence time [i / 100]. *)
Definition row {F : Type} (chirp_mass geocent_time : F) : Row F :=
  {[ "chirp_mass" := chirp_mass; "geocent_time" := geocent_time ]}.

Definition theta3 : list (Row float) :=
  [row 1%float 0.25%float; row 2%float 0.5%float; row 3%float 0.75%float].

(** Log-priors for [theta3]: finite, minus infinity, NaN. *)
Definition ln_prob3 (_ : list (Row float)) : list float :=
  [-1.5; neg_infinity; nan]%float.

Definition theta5 : list (Row float) :=
  [row 1 0.25; row 2 0.5; row 3 0.75; row 4 0.125; row 5 0.375]%float.

Definition bounds {F : Type} (lo hi : F) : Prior F :=
  {| minimum := lo; maximum := hi |}.

(** Model metadata with the given chirp-mass prior, chirp-mass kernel and
    coalescence-time prior. *)
Definition metadata {F : Type} (prior kernel time : Prior F) : Metadata F :=
  {| intrinsic_prior := {[ "chirp_mass" := prior ]};
     gnpe_chirp_kernel := {[ "chirp_mass" := kernel ]};
     extrinsic_prior := {[ "geocent_time" := time ]} |}.

(** The double nearest to one tenth. *)
Definition tenth : float := 0x1.999999999999ap-4%float.

(** Prior [[0, 10]], kernel [[-0.5, 0.5]], time prior [[-0.1, 0.1]]. *)
Definition spec_Q : Metadata Q :=
  (metadata (bounds 0 10) (bounds (- (1 # 2)) (1 # 2))
     (bounds (- (1 # 10)) (1 # 10)))%Q.

Definition spec_float : Metadata float :=
  (metadata (bounds 0 10) (bounds (-0.5) 0.5) (bounds (- tenth) tenth))%float.

(** Prior [[1, 2]], kernel [[-0.5, 0.5]], time prior [[-0.1, 0.1]]: with
    overlap 2 a grid of two chirp masses. *)
Definition small_float : Metadata float :=
  (metadata (bounds 1 2) (bounds (-0.5) 0.5) (bounds (- tenth) tenth))%float.




(** The differences of consecutive entries. *)
Definition gaps (l : list float) : list float :=
  zip_with PrimFloat.sub (tail l) l.

(** Keyword arguments of [create_base_transform] with the given mode tag,
    and collaborators for them: one activation, and the alternating mask
    of nflows. *)
Definition kwargs (tag : string) : Nsf.BaseTransformKwargs Q :=
  {| Nsf.hidden_dim := 512;
     Nsf.num_transform_blocks := 2;
     Nsf.activation := "relu";
     Nsf.dropout_probability := 0%Q;
     Nsf.batch_norm := false;
     Nsf.num_bins := 8;
     Nsf.tail_bound := 1%Q;
     Nsf.apply_unconditional_transform := false;
     Nsf.base_transform_type := tag |}.

Definition relu_only (name : string) : result string :=
  if String.eqb name "relu" then Ok name else Raise ValueError.

Definition alternating (features : Z) (even : bool) : list Z :=
  (λ i, if Z.even i then (if even then 1 else 0)
        else (if even then 0 else 1)) <$> seqZ 0 features.

(** A flow for a parameter space of dimension [dim], with an embedding
    network that passes on the first tensor of its input: on a context of
    [rows] rows it returns the tensor of shape [(rows, num_samples, dim)]
    whose entry at [(i, j, k)] is [100 i + 10 j + k]. *)
Definition context_rows (context : Nsf.Context (Nsf.Tensor Z) (Nsf.Tensor Z))
    : nat :=
  match context with
  | Nsf.Embedded e => default 0%nat (head (Nsf.shape e))
  | Nsf.Tuple _ => 0%nat
  end.

Definition flow (dim : nat)
    : Nsf.FlowWrapper (Nsf.Tensor Z) (Nsf.Tensor Z) unit Z :=
  {| Nsf.flow_sample := λ num_samples context,
       Ok (Nsf.Build_Tensor
             [context_rows context; Z.to_nat num_samples; dim]
             (i ← seqZ 0 (Z.of_nat (context_rows context));
              j ← seqZ 0 num_samples;
              k ← seqZ 0 (Z.of_nat dim);
              [100 * i + 10 * j + k]));
     Nsf.flow_log_prob := λ _ _, Raise RuntimeError;
     Nsf.embedding_net := Some (λ x, index x 0) |}.

(** A context of [rows] rows of four zeros. *)
Definition context (rows : nat) : Nsf.Tensor Z :=
  Nsf.Build_Tensor [rows; 4%nat] (replicate (rows * 4) 0).

(** An event dataset recorded at time [1000] with one detector, and a
    stand-in for the phase rotation of the frequency domain. *)
Definition event : EventDataset float (list float) :=
  {| data := {[ "waveform" := {[ "H1" := [1; 2]%float ]};
                "asds" := {[ "H1" := [4; 4]%float ]} ]};
     settings := {[ "f_min" := 20%float; "f_max" := 1024%float;
                    "T" := 8%float; "time_event" := 1000%float ]} |}.

Definition rotate (f_min f_max delta_f : float) (v : list float)
    (dt : float) : list float :=
  (λ x, x * dt)%float <$> v.

Definition settings_at {F : Type} (time_event : F) : gmap string F :=
  {[ "time_event" := time_event ]}.

(** Two samples as the model and [transform_post] return them, offsets
    included, and a table of two rows; an evaluator that scores a row with
    its chirp mass as log-likelihood and the SNR 8; log-priors that put
    every row outside the support. *)
Definition samples2 : Samples float :=
  {[ "delta_chirp_mass" := [0.25; 0.5]%float;
     "geocent_time" := [0.125; 0.375]%float ]}.

Definition table2 : Samples float :=
  {[ "chirp_mass" := [1; 2]%float; "geocent_time" := [0.125; 0.375]%float ]}.

Definition evaluate (_ : gmap string (gmap string (list float)))
    (theta : list (Row float)) : list (float * float) :=
  (λ row : Row float, (default 0%float (row !! "chirp_mass"), 8%float))
    <$> theta.

Definition ln_prob_outside (theta : list (Row float)) : list float :=
  (λ _, neg_infinity) <$> theta.

Definition ln_prob_inside (theta : list (Row float)) : list float :=
  (λ _, (-1.5)%float) <$> theta.


(** Collaborators for a whole run of [main]: every event file holds
    [event]; the pre-processing passes on the chirp mass; the model returns
    one sample per row of the batch, which the post-processing turns into
    the offsets 0.25 and the coalescence times 0.125. *)
Definition event_file (_ : string)
    : result (EventDataset float (list float)) :=
  Ok event.

Definition transform_pre (_ : gmap string (gmap string (list float)))
    (x : float) : Out float :=
  {| waveform := x; context_parameters := x |}.

Definition model_sample (waveform context_parameters : list float)
    : result (list float) :=
  Ok waveform.

Definition transform_post (s : list float) : result (Samples float) :=
  Ok {[ "delta_chirp_mass" := (λ _, 0.25%float) <$> s;
        "geocent_time" := (λ _, 0.125%float) <$> s ]}.

End Fixture.

(** * Properties *)

(** ** The order of binary64 *)

Section SpecFloatOrder.

Lemma SFcompare_refl (x : spec_float) :
  x ≠ S754_nan → SFcompare x x = Some Eq.
Proof.
  destruct x as [s|s| |s m e]; intros Hx; try done; try by destruct s.
  cbn [SFcompare]. rewrite Z.compare_refl.
  change (Pos.compare_cont Eq m m) with (Pos.compare m m).
  rewrite Pos.compare_refl. by destruct s.
Qed.

Lemma SFeqb_refl (x : spec_float) : SFeqb x x = negb (SFis_nan x).
Proof.
  destruct x as [s|s| |s m e]; try done; try by destruct s.
  unfold SFeqb. by rewrite SFcompare_refl.
Qed.

Lemma SFleb_nan_l (y : spec_float) : SFleb S754_nan y = false.
Proof. done. Qed.

(** Two numbers are comparable. *)
Lemma SFleb_total (x y : spec_float) :
  x ≠ S754_nan → y ≠ S754_nan → SFleb x y = false → SFltb y x = true.
Proof.
  unfold SFleb, SFltb.
  destruct x as [sx|sx| |sx mx ex], y as [sy|sy| |sy my ey];
    intros Hx Hy; try done; cbn [SFcompare];
    try (by destruct sx); try (by destruct sy); try (by destruct sx, sy).
  change (Pos.compare_cont Eq mx my) with (Pos.compare mx my).
  change (Pos.compare_cont Eq my mx) with (Pos.compare my mx).
  rewrite (Z.compare_antisym ey ex), (Pos.compare_antisym my mx).
  destruct sx, sy; try done;
    destruct (ey ?= ex)%Z; simpl; try done;
    by destruct (my ?= mx)%positive.
Qed.

Lemma SFltb_leb (x y : spec_float) : SFltb x y = true → SFleb x y = true.
Proof. unfold SFltb, SFleb. by destruct (SFcompare x y) as [[]|]. Qed.

Lemma lex_spec (e1 : Z) (m1 : positive) (e2 : Z) (m2 : positive) :
  match lex e1 m1 e2 m2 with
  | Lt => (e1 < e2)%Z ∨ (e1 = e2 ∧ (m1 < m2)%positive)
  | Eq => e1 = e2 ∧ m1 = m2
  | Gt => (e2 < e1)%Z ∨ (e1 = e2 ∧ (m2 < m1)%positive)
  end.
Proof.
  unfold lex. destruct (Z.compare_spec e1 e2); [|by left..].
  destruct (Pos.compare_spec m1 m2); [done|by right..].
Qed.

Lemma lex_opp (e1 : Z) (m1 : positive) (e2 : Z) (m2 : positive) :
  match (e1 ?= e2)%Z with
  | Eq => CompOpp (m1 ?= m2)%positive
  | Lt => Gt
  | Gt => Lt
  end = CompOpp (lex e1 m1 e2 m2).
Proof. unfold lex. by destruct (e1 ?= e2)%Z. Qed.

Lemma SFleb_ltb_trans (x y z : spec_float) :
  SFleb x y = true → SFltb y z = true → SFltb x z = true.
Proof.
  unfold SFleb, SFltb.
  destruct x as [sx|sx| |sx mx ex], y as [sy|sy| |sy my ey],
    z as [sz|sz| |sz mz ez];
    cbn [SFcompare]; try done;
    try (by destruct sx); try (by destruct sy); try (by destruct sz);
    try (by destruct sx, sy); try (by destruct sy, sz);
    try (by destruct sx, sz); try (by destruct sx, sy, sz).
  change (Pos.compare_cont Eq ?a ?b) with (Pos.compare a b).
  pose proof (lex_spec ex mx ey my) as H1.
  pose proof (lex_spec ey my ez mz) as H2.
  pose proof (lex_spec ex mx ez mz) as H3.
  destruct sx, sy, sz; try done; rewrite ?lex_opp;
    fold (lex ex mx ey my); fold (lex ey my ez mz); fold (lex ex mx ez mz);
    destruct (lex ex mx ey my), (lex ey my ez mz), (lex ex mx ez mz);
    cbn [CompOpp]; try done; lia.
Qed.

End SpecFloatOrder.

Section FloatOrder.
Local Open Scope float_scope.

Lemma is_nan_Prim2SF (x : float) : IEEE.is_nan x = SFis_nan (Prim2SF x).
Proof.
  unfold IEEE.is_nan. rewrite FloatAxioms.eqb_spec, SFeqb_refl. by rewrite negb_involutive.
Qed.

Lemma not_nan_Prim2SF (x : float) :
  IEEE.is_nan x = false → Prim2SF x ≠ S754_nan.
Proof. rewrite is_nan_Prim2SF. intros Hx E. by rewrite E in Hx. Qed.

(** A NaN is not below anything. *)
Lemma leb_nan (x y : float) : IEEE.is_nan x = true → (x <=? y) = false.
Proof.
  rewrite is_nan_Prim2SF, FloatAxioms.leb_spec. by destruct (Prim2SF x).
Qed.

Lemma leb_refl (x : float) : IEEE.is_nan x = false → (x <=? x) = true.
Proof.
  intros Hx%not_nan_Prim2SF. rewrite FloatAxioms.leb_spec. unfold SFleb.
  by rewrite SFcompare_refl.
Qed.

Lemma leb_total (x y : float) :
  IEEE.is_nan x = false → IEEE.is_nan y = false →
  (x <=? y) = false → (y <? x) = true.
Proof.
  intros Hx%not_nan_Prim2SF Hy%not_nan_Prim2SF. rewrite FloatAxioms.leb_spec, FloatAxioms.ltb_spec.
  by apply SFleb_total.
Qed.

Lemma ltb_leb (x y : float) : (x <? y) = true → (x <=? y) = true.
Proof. rewrite FloatAxioms.leb_spec, FloatAxioms.ltb_spec. apply SFltb_leb. Qed.

Lemma leb_ltb_trans (x y z : float) :
  (x <=? y) = true → (y <? z) = true → (x <? z) = true.
Proof. rewrite FloatAxioms.leb_spec, !FloatAxioms.ltb_spec. apply SFleb_ltb_trans. Qed.

End FloatOrder.

Section FloatZero.
Local Open Scope float_scope.


End FloatZero.

(** ** The batch of the scan: [generate_data_for_scan] *)

Section GenerateDataFacts.
Context {F : Type} `{PyFloat F} {Data T : Type}.
Variable transform : Data → F → Out T.
Variable zeros_like : T → T.

Lemma slice_bound_in (len i : Z) : 0 ≤ i ≤ len → Arrays.slice_bound len i = i.
Proof. intros. unfold Arrays.slice_bound. destruct (Z.ltb_spec i 0); lia. Qed.

Lemma slice_assign_block (pre rest : list T) (lower upper : Z) (n : nat) (v : T) :
  lower = Z.of_nat (length pre) →
  upper = lower + Z.of_nat n →
  (n ≤ length rest)%nat →
  Arrays.slice_assign (pre ++ rest) lower upper v
  = pre ++ replicate n v ++ drop n rest.
Proof.
  intros -> -> Hn. unfold Arrays.slice_assign.
  rewrite length_app, !slice_bound_in by lia.
  rewrite Z.max_r by lia.
  replace (Z.to_nat (Z.of_nat (length pre) + Z.of_nat n
                     - Z.of_nat (length pre))) with n by lia.
  rewrite Nat2Z.id, take_app_length.
  replace (Z.to_nat (Z.of_nat (length pre) + Z.of_nat n))
    with (length pre + n)%nat by lia.
  by rewrite drop_app_add.
Qed.

Lemma generate_data_loop (data : Data) (n : nat) (z1 z2 : T)
    (rest : list F) (k : Z) (done1 done2 : list T) :
  Z.of_nat (length done1) = k * Z.of_nat n →
  Z.of_nat (length done2) = k * Z.of_nat n →
  foldl (generate_data_step transform data (Z.of_nat n))
    (done1 ++ replicate (length rest * n) z1,
     done2 ++ replicate (length rest * n) z2)
    (zip (seqZ k (Z.of_nat (length rest))) rest)
  = (done1 ++ (rest ≫= block transform n waveform data),
     done2 ++ (rest ≫= block transform n context_parameters data)).
Proof.
  revert k done1 done2.
  induction rest as [|x rest IH]; intros k done1 done2 H1 H2.
  - simpl. by rewrite !app_nil_r.
  - rewrite length_cons, Nat2Z.inj_succ, seqZ_cons, Z.pred_succ by lia.
    cbn [zip zip_with foldl generate_data_step fst snd].
    replace (S (length rest) * n)%nat with (n + length rest * n)%nat by lia.
    rewrite !(slice_assign_block _ _ _ _ n)
      by (rewrite ?length_replicate; lia).
    rewrite !drop_replicate.
    replace (n + length rest * n - n)%nat with (length rest * n)%nat by lia.
    rewrite !(app_assoc _ (replicate n _)).
    rewrite (IH (Z.succ k)) by (rewrite length_app, length_replicate; lia).
    cbn [mbind list_bind]. by rewrite <- !app_assoc.
Qed.

(** On a grid that is not empty and for a count that is not negative, the
    batch is the concatenation of the blocks of the grid values. *)
Lemma generate_data_for_scan_blocks (data : Data) (chirp_masses : list F)
    (num_samples : Z) :
  chirp_masses ≠ [] → 0 ≤ num_samples →
  generate_data_for_scan transform zeros_like data chirp_masses num_samples
  = Ok (chirp_masses ≫= block transform (Z.to_nat num_samples) waveform data,
        chirp_masses ≫= block transform (Z.to_nat num_samples) context_parameters data).
Proof.
  intros Hne Hns. unfold generate_data_for_scan.
  destruct chirp_masses as [|x0 rest] eqn:E; [done|]. rewrite <- E.
  replace (index chirp_masses 0) with (Ok x0) by by rewrite E.
  cbn [mbind result_bind]. unfold Arrays.zeros.
  destruct (Z.ltb_spec (Z.of_nat (length chirp_masses) * num_samples) 0);
    [lia|].
  cbn [mbind result_bind]. f_equal. unfold Arrays.enumerate.
  replace (Z.to_nat (Z.of_nat (length chirp_masses) * num_samples))
    with (length chirp_masses * Z.to_nat num_samples)%nat by lia.
  rewrite <- (Z2Nat.id num_samples) at 1 by done.
  apply (generate_data_loop data _ _ _ chirp_masses 0 [] []); simpl; lia.
Qed.

(** Row [i] of the concatenation of blocks of [n] rows is a copy of the
    block of index [i / n]. *)
Lemma blocks_lookup {A B : Type} (f : A → B) (n : nat) (l : list A) (i : nat) :
  (0 < n)%nat →
  (l ≫= λ x, replicate n (f x)) !! i = f <$> l !! (i / n)%nat.
Proof.
  intros Hn. revert i. induction l as [|x l IH]; intros i.
  - done.
  - cbn [mbind list_bind]. change (mbind ?g l) with (l ≫= g).
    destruct (decide (i < n)%nat) as [Hi|Hi].
    + rewrite lookup_app_l by (rewrite length_replicate; lia).
      rewrite Nat.div_small by done. simpl.
      by rewrite lookup_replicate_2.
    + rewrite lookup_app_r by (rewrite length_replicate; lia).
      rewrite length_replicate, IH.
      replace i with ((i - n) + 1 * n)%nat at 2 by lia.
      rewrite Nat.div_add by lia.
      by replace ((i - n) / n + 1)%nat with (S ((i - n) / n)) by lia.
Qed.

Lemma blocks_length {A B : Type} (f : A → list B) (n : nat) (l : list A) :
  (∀ x, length (f x) = n) → length (l ≫= f) = (length l * n)%nat.
Proof.
  intros Hf. induction l as [|x l IH]; [done|].
  cbn [mbind list_bind]. change (mbind ?g l) with (l ≫= g).
  rewrite length_app, Hf, IH. simpl. lia.
Qed.

Lemma generate_data_for_scan_empty (data : Data) (num_samples : Z) :
  generate_data_for_scan transform zeros_like data [] num_samples
  = Raise IndexError.
Proof. reflexivity. Qed.

Lemma repeat_lookup {A : Type} (a : list A) (n : Z) (i : Z) :
  0 < n → 0 ≤ i →
  ∃ r, Arrays.repeat_ a n = Ok r
       ∧ r !! Z.to_nat i = a !! Z.to_nat (i / n).
Proof.
  intros Hn Hi. unfold Arrays.repeat_.
  destruct (Z.ltb_spec n 0); [lia|]. eexists; split; [done|].
  rewrite (blocks_lookup id) by lia.
  rewrite Z2Nat.inj_div by lia. by destruct (a !! _).
Qed.

(** C1: for a positive number of samples per grid point the builder
    returns on every grid that is not empty, and whenever it returns, each
    output tensor is the concatenation, in grid order, of one block of
    [num_samples] rows per grid value, so that it has
    [grid_count * num_samples] rows and row [i] is the output of the
    transform at the grid value of index [i // num_samples];
    the array [chirp_masses.repeat(num_samples)] of [main] is indexed the
    same way. *)
Theorem generate_data_for_scan_rows (data : Data) (chirp_masses : list F)
    (num_samples : Z) :
  0 < num_samples →
  (chirp_masses ≠ [] →
   ∃ out, generate_data_for_scan transform zeros_like data chirp_masses
            num_samples = Ok out)
  ∧ (∀ w c,
       generate_data_for_scan transform zeros_like data chirp_masses
         num_samples = Ok (w, c) →
       w = chirp_masses ≫= block transform (Z.to_nat num_samples) waveform data
       ∧ c = chirp_masses
             ≫= block transform (Z.to_nat num_samples) context_parameters data
       ∧ Z.of_nat (length w) = Z.of_nat (length chirp_masses) * num_samples
       ∧ Z.of_nat (length c) = Z.of_nat (length chirp_masses) * num_samples
       ∧ ∀ i, 0 ≤ i < Z.of_nat (length chirp_masses) * num_samples →
           ∃ x, chirp_masses !! Z.to_nat (i / num_samples) = Some x
                ∧ w !! Z.to_nat i = Some (waveform (transform data x))
                ∧ c !! Z.to_nat i
                  = Some (context_parameters (transform data x))
                ∧ ∃ r, Arrays.repeat_ chirp_masses num_samples = Ok r
                       ∧ r !! Z.to_nat i = Some x).
Proof.
  intros Hns. split.
  - intros Hne. rewrite generate_data_for_scan_blocks by (done || lia).
    by eexists.
  - intros w c Hrun. destruct chirp_masses as [|x0 rest] eqn:E.
    { by rewrite generate_data_for_scan_empty in Hrun. }
    rewrite <- E in *. assert (chirp_masses ≠ []) as Hne by by rewrite E.
    rewrite generate_data_for_scan_blocks in Hrun by (done || lia).
    injection Hrun as <- <-.
    rewrite !(blocks_length _ (Z.to_nat num_samples))
      by (intros; apply length_replicate).
    split; [done|]. split; [done|]. split; [lia|]. split; [lia|].
    intros i Hi.
    assert (Z.to_nat (i / num_samples) < length chirp_masses)%nat as Hlt.
    { apply Nat2Z.inj_lt. rewrite Z2Nat.id by (apply Z.div_pos; lia).
      apply Z.div_lt_upper_bound; lia. }
    destruct (lookup_lt_is_Some_2 _ _ Hlt) as [x Hx].
    exists x. unfold block.
    rewrite !(blocks_lookup (λ y, _ (transform data y))) by lia.
    rewrite <- !Z2Nat.inj_div, !Hx by lia. repeat split.
    destruct (repeat_lookup chirp_masses num_samples i) as (r & Hr & Hri);
      [lia..|].
    exists r. by rewrite Hri.
Qed.

(** C10, as amended: an empty grid makes the builder fail with an index
    error whatever the other arguments are; on a grid that is not empty the
    probe [chirp_masses[0]] is in bounds, and if moreover the number of
    samples is not negative the builder returns two tensors of
    [grid_count * num_samples] rows. *)
Theorem generate_data_for_scan_total (data : Data) (chirp_masses : list F)
    (num_samples : Z) :
  (chirp_masses = [] →
   generate_data_for_scan transform zeros_like data chirp_masses num_samples
   = Raise IndexError)
  ∧ (chirp_masses ≠ [] →
     (∃ first, index chirp_masses 0 = Ok first)
     ∧ (0 ≤ num_samples →
        ∃ w c,
          generate_data_for_scan transform zeros_like data chirp_masses
            num_samples = Ok (w, c)
          ∧ Z.of_nat (length w)
            = Z.of_nat (length chirp_masses) * num_samples
          ∧ Z.of_nat (length c)
            = Z.of_nat (length chirp_masses) * num_samples)).
Proof.
  split; [by intros ->|]. intros Hne. split.
  - destruct chirp_masses as [|x0 rest]; [done|]. by exists x0.
  - intros Hns. rewrite generate_data_for_scan_blocks by done.
    do 2 eexists. split; [done|].
    rewrite !(blocks_length _ (Z.to_nat num_samples))
      by (intros; apply length_replicate).
    lia.
Qed.

End GenerateDataFacts.

(** C1 on the grid of three values with four samples each: the twelve rows
    of the batch. *)
Lemma generate_data_for_scan_rows_witness :
  0 < 4
  ∧ (Fixture.grid3 ≠ [] →
     ∃ out, generate_data_for_scan Fixture.echo Fixture.zero ()
              Fixture.grid3 4 = Ok out)
  ∧ (∀ w c,
       generate_data_for_scan Fixture.echo Fixture.zero () Fixture.grid3 4
       = Ok (w, c) →
       w = Fixture.grid3 ≫= block Fixture.echo (Z.to_nat 4) waveform ()
       ∧ c = Fixture.grid3
             ≫= block Fixture.echo (Z.to_nat 4) context_parameters ()
       ∧ Z.of_nat (length w) = Z.of_nat (length Fixture.grid3) * 4
       ∧ Z.of_nat (length c) = Z.of_nat (length Fixture.grid3) * 4
       ∧ ∀ i, 0 ≤ i < Z.of_nat (length Fixture.grid3) * 4 →
           ∃ x, Fixture.grid3 !! Z.to_nat (i / 4) = Some x
                ∧ w !! Z.to_nat i = Some (waveform (Fixture.echo () x))
                ∧ c !! Z.to_nat i
                  = Some (context_parameters (Fixture.echo () x))
                ∧ ∃ r, Arrays.repeat_ Fixture.grid3 4 = Ok r
                       ∧ r !! Z.to_nat i = Some x).
Proof.
  split; [lia|].
  apply (generate_data_for_scan_rows Fixture.echo Fixture.zero ()
           Fixture.grid3 4).
  lia.
Defined.

(** C1, the run itself: three grid values, four samples each. *)
Example generate_data_for_scan_3_4 :
  generate_data_for_scan Fixture.echo Fixture.zero () Fixture.grid3 4
  = Ok ([1.5; 1.5; 1.5; 1.5; 2.5; 2.5; 2.5; 2.5; 3.5; 3.5; 3.5; 3.5]%float,
        [1.5; 1.5; 1.5; 1.5; 2.5; 2.5; 2.5; 2.5; 3.5; 3.5; 3.5; 3.5]%float).
Proof. reflexivity. Qed.

(** C10 as first stated fails: on the grid [[1.5]] with [num_samples = -1]
    the probe is in bounds, yet the allocation of the output raises. *)
Lemma generate_data_for_scan_negative_count :
  [1.5%float] ≠ []
  ∧ generate_data_for_scan Fixture.echo Fixture.zero () [1.5%float] (-1)
    = Raise RuntimeError.
Proof. split; [discriminate|reflexivity]. Qed.

Lemma generate_data_for_scan_total_witness :
  (([] : list float) = [] →
   generate_data_for_scan Fixture.echo Fixture.zero () [] 4
   = Raise IndexError)
  ∧ (Fixture.grid3 ≠ [] ∧ 0 ≤ 4
     ∧ ∃ w c,
         generate_data_for_scan Fixture.echo Fixture.zero () Fixture.grid3 4
         = Ok (w, c)
         ∧ Z.of_nat (length w) = Z.of_nat (length Fixture.grid3) * 4
         ∧ Z.of_nat (length c) = Z.of_nat (length Fixture.grid3) * 4).
Proof.
  split.
  - apply (generate_data_for_scan_total Fixture.echo Fixture.zero () [] 4).
  - assert (Fixture.grid3 ≠ []) as Hne by discriminate.
    repeat split; [exact Hne|lia|].
    apply (generate_data_for_scan_total Fixture.echo Fixture.zero ()
             Fixture.grid3 4); [exact Hne|lia].
Defined.

(** ** The prior filter of [main] *)

Section TakeFacts.
Context {A B : Type}.

Lemma take_cons_shift (x : A) (l : list A) (indices : list nat) :
  Arrays.take_ (x :: l) (S <$> indices) = Arrays.take_ l indices.
Proof.
  unfold Arrays.take_. induction indices as [|i indices IH]; [done|].
  cbn [fmap list_fmap mapM]. cbn [mapM] in IH. by rewrite IH.
Qed.

Lemma where_from_S (i : nat) (mask : list bool) :
  Arrays.where_from (S i) mask = S <$> Arrays.where_from i mask.
Proof.
  revert i. induction mask as [|b mask IH]; intros i; [done|].
  cbn [Arrays.where_from]. rewrite fmap_app, IH. by destruct b.
Qed.

(** Taking the positions at which [keep] holds on the co-indexed array
    [lp] is filtering the pairs. *)
Lemma take_where (keep : B → bool) (l : list A) (lp : list B) :
  (length lp ≤ length l)%nat →
  Arrays.take_ l (Arrays.where_ (keep <$> lp))
  = Ok (filter (λ p, keep p.2) (zip l lp)).*1.
Proof.
  unfold Arrays.where_. revert l.
  induction lp as [|x lp IH]; intros l Hlen; [by destruct l|].
  destruct l as [|r l]; [simpl in Hlen; lia|].
  cbn [fmap list_fmap Arrays.where_from zip zip_with].
  rewrite where_from_S, filter_cons. cbn [snd].
  assert (length lp ≤ length l)%nat as Hlen' by (simpl in Hlen; lia).
  destruct (keep x); cbn [app decide Is_true_dec decide_rel].
  - unfold Arrays.take_.
    cbn [mapM index lookup list_lookup mbind result_bind].
    change (mapM (index (r :: l)) ?ix) with (Arrays.take_ (r :: l) ix).
    by rewrite take_cons_shift, IH.
  - by rewrite take_cons_shift, IH.
Qed.

Lemma filter_zip_snd (keep : B → bool) (l : list A) (lp : list B) :
  (length lp ≤ length l)%nat →
  (filter (λ p, keep p.2) (zip l lp)).*2 = filter (λ x, keep x) lp.
Proof.
  revert l. induction lp as [|x lp IH]; intros l Hlen; [by destruct l|].
  destruct l as [|r l]; [simpl in Hlen; lia|].
  cbn [zip zip_with]. rewrite !filter_cons. cbn [snd].
  assert (length lp ≤ length l)%nat as Hlen' by (simpl in Hlen; lia).
  destruct (keep x); simpl; [f_equal|]; by apply IH.
Qed.

End TakeFacts.

Section PriorFilterFacts.
Context {F : Type} `{PyFloat F}.

(** The rows kept by the filter, each with its log-prior. *)
Lemma prior_filter_kept (theta : list (Row F)) (log_prior : list F) :
  length log_prior = length theta →
  prior_filter theta log_prior
  = Ok ((kept theta log_prior).*1, (kept theta log_prior).*2).
Proof.
  intros Hlen. unfold prior_filter, kept.
  rewrite (take_where gt_neg_inf theta log_prior) by lia.
  cbn [mbind result_bind].
  rewrite (take_where gt_neg_inf log_prior log_prior) by lia.
  cbn [mbind result_bind]. do 2 f_equal.
  rewrite (filter_zip_snd gt_neg_inf theta) by lia.
  clear Hlen. induction log_prior as [|x lp IH]; [done|].
  cbn [zip zip_with]. rewrite !filter_cons. cbn [snd].
  destruct (gt_neg_inf x); simpl; [f_equal|]; by apply IH.
Qed.

Lemma kept_support (theta : list (Row F)) (log_prior : list F) row x :
  (row, x) ∈ kept theta log_prior → gt_neg_inf x = true.
Proof.
  unfold kept. rewrite list_elem_of_filter. cbn [snd].
  intros [Hx _]. by destruct (gt_neg_inf x).
Qed.

End PriorFilterFacts.

(** ** The trigger of [main] *)

Section ArgmaxFacts.
Local Open Scope float_scope.

(** The loop of [argmax] on binary64 values.  While no NaN has been met the
    running maximum is the largest value seen so far, at its first position;
    the first NaN ends the search and is the result. *)
Lemma argmax_from_spec (ip pre : list float) (mp : float) (max_ind i : nat) :
  i = length pre →
  pre !! max_ind = Some mp →
  Forall (λ x, IEEE.is_nan x = false) pre →
  (∀ j x, pre !! j = Some x → (x <=? mp) = true) →
  (∀ j x, (j < max_ind)%nat → pre !! j = Some x → (x <? mp) = true) →
  ∃ y, (pre ++ ip) !! Arrays.argmax_from mp max_ind i ip = Some y
    ∧ (Forall (λ x, IEEE.is_nan x = false) ip →
       (∀ j x, (pre ++ ip) !! j = Some x → (x <=? y) = true)
       ∧ (∀ j x, (j < Arrays.argmax_from mp max_ind i ip)%nat →
            (pre ++ ip) !! j = Some x → (x <? y) = true))
    ∧ (∀ k x, (pre ++ ip) !! k = Some x → IEEE.is_nan x = true →
         IEEE.is_nan y = true
         ∧ (Arrays.argmax_from mp max_ind i ip ≤ k)%nat).
Proof.
  revert pre mp max_ind i.
  induction ip as [|x ip IH]; intros pre mp max_ind i Hi Hmp Hpre Hle Hlt.
  - rewrite app_nil_r. exists mp. cbn [Arrays.argmax_from].
    split; [done|]. split; [by intros _|].
    intros k x Hk Hnan. rewrite Forall_lookup in Hpre.
    rewrite (Hpre k x Hk) in Hnan. done.
  - assert (IEEE.is_nan mp = false) as Hmpn.
    { rewrite Forall_lookup in Hpre. by apply (Hpre max_ind). }
    assert (S i = length (pre ++ [x])) as HSi.
    { rewrite length_app. simpl. lia. }
    cbn [Arrays.argmax_from fleb is_nan IEEE_float].
    destruct (x <=? mp) eqn:Hx; cbn [negb].
    + (* the maximum stays *)
      assert (IEEE.is_nan x = false) as Hxn.
      { destruct (IEEE.is_nan x) eqn:Hn; [|done].
        by rewrite (leb_nan x mp Hn) in Hx. }
      rewrite cons_middle, app_assoc.
      destruct (IH (pre ++ [x]) mp max_ind (S i)) as (y & Hy & Hmax & Hnan).
      * done.
      * by apply lookup_app_l_Some.
      * apply Forall_app. split; [done|]. by constructor.
      * intros j z [Hz|[_ Hz]]%lookup_app_Some; [eauto|].
        destruct (j - length pre)%nat; simplify_eq/=; done.
      * intros j z Hj [Hz|[Hge Hz]]%lookup_app_Some; [eauto|].
        apply lookup_lt_Some in Hmp. lia.
      * exists y. split; [done|]. split; [|done].
        intros [_ Hip]%Forall_cons. by apply Hmax.
    + destruct (IEEE.is_nan x) eqn:Hxn.
      * (* a NaN ends the search *)
        exists x. split; [subst i; by apply list_lookup_middle|].
        split.
        { intros [Hc _]%Forall_cons. congruence. }
        intros k z Hk Hz. split; [done|].
        destruct (decide (k < i)%nat) as [Hlow|]; [|lia].
        rewrite lookup_app_l in Hk by lia.
        rewrite Forall_lookup in Hpre. rewrite (Hpre k z Hk) in Hz. done.
      * (* a new maximum *)
        assert ((mp <? x) = true) as Hgt by by apply leb_total.
        rewrite cons_middle, app_assoc.
        destruct (IH (pre ++ [x]) x i (S i)) as (y & Hy & Hmax & Hnan).
        -- done.
        -- subst i. by apply list_lookup_middle.
        -- apply Forall_app. split; [done|]. by constructor.
        -- intros j z [Hz|[_ Hz]]%lookup_app_Some.
           ++ apply ltb_leb. eapply leb_ltb_trans; eauto.
           ++ destruct (j - length pre)%nat; simplify_eq/=.
              by apply leb_refl.
        -- intros j z Hj [Hz|[Hge Hz]]%lookup_app_Some; [|lia].
           eapply leb_ltb_trans; eauto.
        -- exists y. split; [done|]. split; [|done].
           intros [_ Hip]%Forall_cons. by apply Hmax.
Qed.

(** [np.argmax] on binary64 values: the position of the first NaN if there
    is one, and the first position of the largest value otherwise. *)
Lemma argmax_spec (a : list float) :
  a ≠ [] →
  ∃ i y, Arrays.argmax a = Ok i ∧ a !! i = Some y
    ∧ (Forall (λ x, IEEE.is_nan x = false) a →
       (∀ j x, a !! j = Some x → (x <=? y) = true)
       ∧ (∀ j x, (j < i)%nat → a !! j = Some x → (x <? y) = true))
    ∧ (∀ k x, a !! k = Some x → IEEE.is_nan x = true →
         IEEE.is_nan y = true ∧ (i ≤ k)%nat).
Proof.
  destruct a as [|mp ip]; [done|]. intros _.
  cbn [Arrays.argmax is_nan IEEE_float].
  destruct (IEEE.is_nan mp) eqn:Hmp.
  - exists 0%nat, mp. split; [done|]. split; [done|]. split.
    + intros [Hc _]%Forall_cons. congruence.
    + intros k x _ _. split; [done|lia].
  - destruct (argmax_from_spec ip [mp] mp 0 1) as (y & Hy & Hmax & Hnan).
    + done.
    + done.
    + by repeat constructor.
    + intros [|j] x ?; simplify_eq/=. by apply leb_refl.
    + intros; lia.
    + exists (Arrays.argmax_from mp 0 1 ip), y.
      split; [done|]. split; [done|]. split; [|done].
      intros [_ Hip]%Forall_cons. by apply Hmax.
Qed.

End ArgmaxFacts.

Section ColumnFacts.
Context {F : Type} `{PyFloat F}.

Lemma getitem_Some {V : Type} (d : gmap string V) (k : string) (v : V) :
  d !! k = Some v → getitem d k = Ok v.
Proof. intros Hk. unfold getitem. by rewrite Hk. Qed.

Lemma index_Some {A : Type} (a : list A) (i : nat) (v : A) :
  a !! i = Some v → index a i = Ok v.
Proof. intros Hi. unfold index. by rewrite Hi. Qed.

Lemma column_lookup (theta : list (Row F)) (name : string) :
  (∀ row, row ∈ theta → is_Some (row !! name)) →
  ∃ col, column theta name = Ok col
         ∧ ∀ i row, theta !! i = Some row → col !! i = row !! name.
Proof.
  unfold column. induction theta as [|r theta IH]; intros Hall.
  - exists []. split; [done|]. intros i row Hi. by destruct i.
  - destruct (Hall r) as [v Hv]; [by left|].
    destruct IH as (col & Hcol & Hrows).
    { intros row Hrow. apply Hall. by right. }
    exists (v :: col). split.
    + cbn [mapM]. rewrite (getitem_Some _ _ _ Hv), Hcol. done.
    + intros [|i] row Hi; simplify_eq/=; [done|]. by apply Hrows.
Qed.

End ColumnFacts.

Section TriggerFacts.
Local Open Scope float_scope.

(** C4, as amended: on a table with at least one row, scored with one
    log-likelihood and one SNR per row, the trigger is the row at the
    position [np.argmax] returns; the report carries the chirp mass of that
    row, the SNR at its position, and the recorded event time plus the
    [geocent_time] of that row.  When no log-likelihood is a NaN that row
    is the first one that has the largest log-likelihood; when one is, it
    is the first row whose log-likelihood is a NaN. *)
Theorem select_trigger_maximum (dt : option float) (theta : list (Row float))
    (log_likelihoods snrs : list float) (settings : gmap string float)
    (time_event : float) :
  theta ≠ [] →
  length log_likelihoods = length theta →
  length snrs = length theta →
  (∀ row, row ∈ theta →
     is_Some (row !! "chirp_mass") ∧ is_Some (row !! "geocent_time")) →
  settings !! "time_event" = Some time_event →
  ∃ i row ll snr chirp_mass geocent_time,
    Arrays.argmax log_likelihoods = Ok i
    ∧ theta !! i = Some row
    ∧ log_likelihoods !! i = Some ll
    ∧ snrs !! i = Some snr
    ∧ row !! "chirp_mass" = Some chirp_mass
    ∧ row !! "geocent_time" = Some geocent_time
    ∧ (Forall (λ x, IEEE.is_nan x = false) log_likelihoods →
       (∀ j x, log_likelihoods !! j = Some x → (x <=? ll) = true)
       ∧ (∀ j x, (j < i)%nat → log_likelihoods !! j = Some x →
            (x <? ll) = true))
    ∧ (∀ k x, log_likelihoods !! k = Some x → IEEE.is_nan x = true →
         IEEE.is_nan ll = true ∧ (i ≤ k)%nat)
    ∧ select_trigger dt theta log_likelihoods snrs settings
      = Ok {| report_dt := dt;
              chirp_mass_trigger := chirp_mass;
              snr_trigger := snr;
              gps_trigger := time_event + geocent_time |}.
Proof.
  intros Hne Hll Hsnr Hcols Hte.
  destruct (argmax_spec log_likelihoods)
    as (i & ll & Hi & Hlli & Hmax & Hnan).
  { intros ->. destruct theta; simplify_eq/=. }
  assert (i < length theta)%nat as Hlt.
  { rewrite <- Hll. by eapply lookup_lt_Some. }
  destruct (lookup_lt_is_Some_2 theta i Hlt) as [row Hrow].
  destruct (lookup_lt_is_Some_2 snrs i) as [snr Hsnri]; [lia|].
  destruct (Hcols row) as [[cm Hcm] [gt Hgt]].
  { by eapply list_elem_of_lookup_2. }
  destruct (column_lookup theta "chirp_mass") as (ccol & Hccol & Hcrows).
  { intros r Hr. by apply Hcols. }
  destruct (column_lookup theta "geocent_time") as (gcol & Hgcol & Hgrows).
  { intros r Hr. by apply Hcols. }
  exists i, row, ll, snr, cm, gt.
  do 6 (split; [done|]). split; [done|]. split; [done|].
  unfold select_trigger. rewrite Hccol, Hgcol, Hi.
  cbn [mbind result_bind].
  rewrite (index_Some ccol i cm) by (by rewrite (Hcrows i row)).
  cbn [mbind result_bind].
  rewrite (index_Some gcol i gt) by (by rewrite (Hgrows i row)).
  cbn [mbind result_bind].
  rewrite (index_Some snrs i snr), (getitem_Some _ _ _ Hte) by done.
  done.
Qed.

End TriggerFacts.

(** C4 on the log-likelihoods [1, 5, 3, 9, 2]: the trigger is row 3, whose
    log-likelihood 9 is the largest. *)
Lemma select_trigger_maximum_witness :
  ∃ row snr chirp_mass geocent_time,
    Arrays.argmax [1; 5; 3; 9; 2]%float = Ok 3%nat
    ∧ Fixture.theta5 !! 3%nat = Some row
    ∧ [10; 50; 30; 90; 20]%float !! 3%nat = Some snr
    ∧ row !! "chirp_mass" = Some chirp_mass
    ∧ row !! "geocent_time" = Some geocent_time
    ∧ (∀ j x, [1; 5; 3; 9; 2]%float !! j = Some x
              → PrimFloat.leb x 9 = true)
    ∧ select_trigger None Fixture.theta5 [1; 5; 3; 9; 2]%float
        [10; 50; 30; 90; 20]%float (Fixture.settings_at 1000%float)
      = Ok {| report_dt := None;
              chirp_mass_trigger := chirp_mass;
              snr_trigger := snr;
              gps_trigger := (1000 + geocent_time)%float |}.
Proof.
  destruct (select_trigger_maximum None Fixture.theta5 [1; 5; 3; 9; 2]%float
              [10; 50; 30; 90; 20]%float (Fixture.settings_at 1000%float)
              1000%float)
    as (i & row & ll & snr & cm & gt & Hi & Hrow & Hll & Hsnr & Hcm & Hgt
        & Hmax & _ & Hsel).
  - discriminate.
  - reflexivity.
  - reflexivity.
  - intros row Hrow. unfold Fixture.theta5 in Hrow.
    repeat (apply elem_of_cons in Hrow as [->|Hrow]; [by split; eexists|]).
    by apply elem_of_nil in Hrow.
  - reflexivity.
  - assert (i = 3%nat) as -> by (vm_compute in Hi; congruence).
    assert (ll = 9%float) as -> by (vm_compute in Hll; congruence).
    exists row, snr, cm, gt. do 5 (split; [done|]). split; [|done].
    apply Hmax. repeat constructor.
Defined.

(** C4 as first stated fails when the evaluator returns a NaN: on the
    log-likelihoods [1, nan, 3] the trigger is row 1, with chirp mass 2 and
    SNR 20, although row 2 has the log-likelihood 3, larger than every
    other number of the column and not below the NaN. *)
Lemma select_trigger_first_nan :
  Arrays.argmax [1; nan; 3]%float = Ok 1%nat
  ∧ select_trigger None Fixture.theta3 [1; nan; 3]%float [10; 20; 30]%float
      (Fixture.settings_at 1000%float)
    = Ok {| report_dt := None;
            chirp_mass_trigger := 2%float;
            snr_trigger := 20%float;
            gps_trigger := 1000.5%float |}
  ∧ [1; nan; 3]%float !! 2%nat = Some 3%float
  ∧ PrimFloat.ltb 1 3 = true
  ∧ PrimFloat.leb 3 nan = false.
Proof. repeat split; vm_compute; reflexivity. Qed.

(** C4, the run in binary64: the trigger is row 3. *)
Example select_trigger_run :
  Arrays.argmax [1; 5; 3; 9; 2]%float = Ok 3%nat
  ∧ select_trigger (Some 0.5%float)
      Fixture.theta5
      [1; 5; 3; 9; 2]%float [10; 50; 30; 90; 20]%float
      (Fixture.settings_at 1000%float)
    = Ok {| report_dt := Some 0.5%float;
            chirp_mass_trigger := 4%float;
            snr_trigger := 90%float;
            gps_trigger := 1000.125%float |}.
Proof. split; vm_compute; reflexivity. Qed.

Section ScoreFacts.
Context {F : Type} `{PyFloat F} {W : Type}.
Variable ln_prob : list (Row F) → list F.
Variable log_likelihood_multi :
  gmap string (gmap string W) → list (Row F) → list (F * F).




End ScoreFacts.

(** ** The prior filter and the likelihood evaluator *)

Section PriorFilterIEEE.
Context {W : Type}.
Variable ln_prob : list (Row float) → list float.


End PriorFilterIEEE.


Example prior_filter_run :
  prior_filter Fixture.theta3 [-1.5; neg_infinity; nan]%float
  = Ok ([Fixture.row 1%float 0.25%float], [(-1.5)%float]).
Proof. vm_compute. reflexivity. Qed.

(** ** Computations on the store *)

Section StoreFacts.
Context {St A B : Type}.

Lemma M_bind_inv (m : M St A) (f : A → M St B) (s : St) (r : B * St) :
  (m ≫= f) s = Ok r → ∃ a s', m s = Ok (a, s') ∧ f a s' = Ok r.
Proof.
  unfold mbind, M_bind. destruct (m s) as [[a s']|]; [|done]. eauto.
Qed.

Lemma lift_inv (x : result A) (s s' : St) (a : A) :
  lift x s = Ok (a, s') → x = Ok a ∧ s' = s.
Proof. unfold lift. destruct x; intros; by simplify_eq. Qed.

Lemma mret_inv (a a' : A) (s s' : St) :
  mret (M:=M St) a s = Ok (a', s') → a' = a ∧ s' = s.
Proof. unfold mret, M_ret. intros; by simplify_eq. Qed.

End StoreFacts.

Section HeapFacts.
Context {F W : Type}.

Lemma deref_inv (l : loc) (h h' : list (EventDataset F W))
    (o : EventDataset F W) :
  deref l h = Ok (o, h') → h !! l = Some o ∧ h' = h.
Proof. unfold deref. destruct (h !! l); intros; by simplify_eq. Qed.

Lemma store_inv (l : loc) (o : EventDataset F W)
    (h h' : list (EventDataset F W)) (u : unit) :
  store l o h = Ok (u, h') → h' = <[l := o]> h.
Proof. unfold store. intros; by simplify_eq. Qed.

End HeapFacts.

(** Peel the steps of a computation that is known to return. *)
Ltac M_inv H :=
  repeat first
    [ apply M_bind_inv in H as (? & ? & ?%deref_inv & H)
    | apply M_bind_inv in H as (? & ? & ?%store_inv & H)
    | apply M_bind_inv in H as (? & ? & ?%lift_inv & H)
    | apply M_bind_inv in H as (? & ? & ?%mret_inv & H)
    | apply store_inv in H
    | apply lift_inv in H
    | apply mret_inv in H
    | apply deref_inv in H ];
  destruct_and?; simplify_eq.

(** ** The time translation of an event dataset *)

Section TranslateFacts.
Context {F : Type} `{PyFloat F} {W : Type}.
Variable time_translate_data : F → F → F → W → F → W.

(** The dataset after the translation by [dt]. *)
Lemma time_translate_event_dataset_run (h : list (EventDataset F W))
    (event_dataset : loc) (o : EventDataset F W)
    (dt f_min f_max T_ time_event : F) (old : gmap string W) :
  h !! event_dataset = Some o →
  settings o !! "f_min" = Some f_min →
  settings o !! "f_max" = Some f_max →
  settings o !! "T" = Some T_ →
  feqb T_ (of_int 0) = false →
  data o !! "waveform" = Some old →
  settings o !! "time_event" = Some time_event →
  time_translate_event_dataset time_translate_data event_dataset dt h
  = Ok ((), <[event_dataset :=
               translated time_translate_data o dt f_min f_max T_ time_event
                 old]> h).
Proof.
  intros Ho Hmin Hmax HT HT0 Hold Hte.
  assert (event_dataset < length h)%nat as Hlt by by eapply lookup_lt_Some.
  unfold time_translate_event_dataset, deref, store, lift, truediv.
  unfold mbind, M_bind. rewrite Ho.
  rewrite (getitem_Some _ _ _ Hmin), (getitem_Some _ _ _ Hmax),
    (getitem_Some _ _ _ HT), HT0, (getitem_Some _ _ _ Hold).
  rewrite list_lookup_insert_eq by done. cbn [settings data].
  rewrite (getitem_Some _ _ _ Hte). by rewrite list_insert_insert_eq.
Qed.

(** Whatever the translation does, it keeps the number of objects and
    touches no object but the one it is given. *)
Lemma time_translate_event_dataset_frame (h h' : list (EventDataset F W))
    (event_dataset : loc) (dt : F) :
  time_translate_event_dataset time_translate_data event_dataset dt h
  = Ok ((), h') →
  length h' = length h
  ∧ ∀ l, l ≠ event_dataset → h' !! l = h !! l.
Proof.
  unfold time_translate_event_dataset. intros Hrun. M_inv Hrun.
  split.
  - by rewrite !length_insert.
  - intros l Hl. by rewrite !list_lookup_insert_ne.
Qed.

(** C6, as amended: the translation returns nothing and updates the
    dataset it is given in place.  After the call the object holds the
    waveform of every detector passed through [time_translate_data] with
    the offset [dt] and an event time reduced by [dt]; its other entries,
    the other objects and the number of objects are as before; the value
    the object had before the call is no longer in the store unless the
    translation changed nothing. *)
Theorem time_translate_event_dataset_in_place (h : list (EventDataset F W))
    (event_dataset : loc) (o : EventDataset F W)
    (dt f_min f_max T_ time_event : F) (old : gmap string W) :
  h !! event_dataset = Some o →
  settings o !! "f_min" = Some f_min →
  settings o !! "f_max" = Some f_max →
  settings o !! "T" = Some T_ →
  feqb T_ (of_int 0) = false →
  data o !! "waveform" = Some old →
  settings o !! "time_event" = Some time_event →
  ∃ h' o',
    time_translate_event_dataset time_translate_data event_dataset dt h
    = Ok ((), h')
    ∧ length h' = length h
    ∧ h' !! event_dataset = Some o'
    ∧ (∀ l, l ≠ event_dataset → h' !! l = h !! l)
    ∧ data o' !! "waveform"
      = Some ((λ v, time_translate_data f_min f_max
                      (fquot (of_int 1) T_) v dt) <$> old)
    ∧ settings o' !! "time_event" = Some (fsub time_event dt)
    ∧ (∀ k, k ≠ "waveform" → data o' !! k = data o !! k)
    ∧ (∀ k, k ≠ "time_event" → settings o' !! k = settings o !! k)
    ∧ (fsub time_event dt ≠ time_event → h' !! event_dataset ≠ Some o).
Proof.
  intros Ho Hmin Hmax HT HT0 Hold Hte.
  assert (event_dataset < length h)%nat as Hlt by by eapply lookup_lt_Some.
  do 2 eexists. split; [by eapply time_translate_event_dataset_run|].
  split; [by rewrite length_insert|].
  split; [by rewrite list_lookup_insert_eq|].
  split; [by intros l Hl; rewrite list_lookup_insert_ne|].
  unfold translated. cbn [data settings].
  split; [by rewrite lookup_insert_eq|].
  split; [by rewrite lookup_insert_eq|].
  split; [by intros k Hk; rewrite lookup_insert_ne|].
  split; [by intros k Hk; rewrite lookup_insert_ne|].
  intros Hne Heq. rewrite list_lookup_insert_eq in Heq by done.
  injection Heq as Heq. apply (f_equal (λ o, settings o !! "time_event")) in Heq.
  cbn [settings] in Heq. rewrite lookup_insert_eq, Hte in Heq. congruence.
Qed.

End TranslateFacts.

(** C6 on a dataset recorded at time 1000, translated by half a second. *)
Lemma time_translate_event_dataset_in_place_witness :
  ∃ h' o',
    time_translate_event_dataset Fixture.rotate 0%nat 0.5%float
      [Fixture.event] = Ok ((), h')
    ∧ length h' = length [Fixture.event]
    ∧ h' !! 0%nat = Some o'
    ∧ data o' !! "waveform"
      = Some ((λ v, Fixture.rotate 20 1024 (fquot (of_int 1) 8) v 0.5)%float
                <$> {[ "H1" := [1; 2]%float ]})
    ∧ settings o' !! "time_event" = Some (fsub 1000 0.5)%float.
Proof.
  destruct (time_translate_event_dataset_in_place Fixture.rotate
              [Fixture.event] 0%nat Fixture.event 0.5%float 20%float
              1024%float 8%float 1000%float {[ "H1" := [1; 2]%float ]})
    as (h' & o' & Hrun & Hlen & Ho' & _ & Hwf & Hte & _);
    try reflexivity.
  exists h', o'. repeat split; assumption.
Defined.

(** C6 as first stated fails: the call returns nothing, the store still
    has one object, and that object is no longer the dataset that was
    passed in: its event time is now 999.5 and its waveform is the rotated
    one. *)
Lemma time_translate_event_dataset_mutates :
  ∃ h',
    time_translate_event_dataset Fixture.rotate 0%nat 0.5%float
      [Fixture.event] = Ok ((), h')
    ∧ length h' = 1%nat
    ∧ h' !! 0%nat ≠ Some Fixture.event
    ∧ (h' !! 0%nat ≫= λ o, settings o !! "time_event") = Some 999.5%float
    ∧ (h' !! 0%nat ≫= λ o, data o !! "waveform")
      = Some {[ "H1" := [0.5; 1]%float ]}.
Proof.
  eexists. split; [vm_compute; reflexivity|].
  split; [reflexivity|]. split; [|split; vm_compute; reflexivity].
  intros Heq.
  apply (f_equal (λ x, x ≫= λ o, settings o !! "time_event")) in Heq.
  apply (f_equal (λ x, match x with
                       | Some v => PrimFloat.eqb v 1000
                       | None => false
                       end)) in Heq.
  vm_compute in Heq. discriminate.
Qed.

Section PassFacts.
Context {F : Type} `{PyFloat F} {W T Smp : Type}.
Variable time_translate_data : F → F → F → W → F → W.
Variable event_file : string → result (EventDataset F W).
Variable transform_pre : gmap string (gmap string W) → F → Out T.
Variable zeros_like : T → T.
Variable model_sample : list T → list T → result Smp.
Variable transform_post : Smp → result (Samples F).
Variable ln_prob : list (Row F) → list F.
Variable log_likelihood_multi :
  gmap string (gmap string W) → list (Row F) → list (F * F).

(** Every pass of the loop of [main] loads its own dataset: the pass adds
    one object to the store and leaves the objects of the earlier passes as
    they were. *)
Lemma scan_pass_fresh_dataset (event_data : string) (chirp_masses : list F)
    (num_samples : Z) (dt : option F) (h h' : list (EventDataset F W))
    (r : Report F * list (Row F)) :
  scan_pass time_translate_data event_file transform_pre zeros_like
    model_sample transform_post ln_prob log_likelihood_multi event_data
    chirp_masses num_samples dt h = Ok (r, h') →
  length h' = S (length h)
  ∧ ∀ l, (l < length h)%nat → h' !! l = h !! l.
Proof.
  unfold scan_pass. intros Hrun.
  apply M_bind_inv in Hrun as (l0 & h0 & Hnew & Hrun).
  unfold EventDataset_new in Hnew.
  destruct (event_file event_data) as [o|]; simplify_eq.
  apply M_bind_inv in Hrun as ([] & h1 & Hshift & Hrun).
  assert (length h1 = S (length h)
          ∧ ∀ l, (l < length h)%nat → h1 !! l = h !! l) as [Hlen Hsame].
  { destruct dt as [dt|].
    - apply time_translate_event_dataset_frame in Hshift as [Hlen Hsame].
      rewrite Hlen, length_app. split; [simpl; lia|].
      intros l Hl. rewrite Hsame by lia. by rewrite lookup_app_l.
    - apply mret_inv in Hshift as [_ ->]. rewrite length_app.
      split; [simpl; lia|]. intros l Hl. by rewrite lookup_app_l. }
  apply M_bind_inv in Hrun as (o1 & h2 & [_ ->]%deref_inv & Hrun).
  apply M_bind_inv in Hrun as ([w c] & h3 & [_ ->]%lift_inv & Hrun).
  apply M_bind_inv in Hrun as (s1 & h4 & [_ ->]%lift_inv & Hrun).
  apply M_bind_inv in Hrun as (s2 & h5 & [_ ->]%lift_inv & Hrun).
  apply M_bind_inv in Hrun as (s3 & h6 & [_ ->]%lift_inv & Hrun).
  by apply lift_inv in Hrun as [_ ->].
Qed.

End PassFacts.

(** ** The grids: [np.linspace], [get_scan_chirp_masses], [get_scan_times] *)

Section LinspaceShape.
Context {F : Type} `{PyFloat F}.

(** Whatever the arithmetic, rounded or not, [linspace] returns [num]
    values, and with two values or more the last one is [stop] itself. *)
Lemma linspace_length_last (start stop : F) (num : Z) :
  0 ≤ num →
  ∃ l, Numpy.linspace start stop num = Ok l
       ∧ length l = Z.to_nat num
       ∧ (2 ≤ num → last l = Some stop).
Proof.
  intros Hnum. unfold Numpy.linspace.
  destruct (Z.ltb_spec num 0) as [|_]; [lia|].
  eexists. split; [reflexivity|].
  assert (∀ f g : F → F,
    length (g <$> (f <$> (of_int <$> seqZ 0 num))) = Z.to_nat num) as Hlen.
  { intros. by rewrite !length_fmap, length_seqZ. }
  assert (∀ l : list F, length l = Z.to_nat num →
    length (if 1 <? num then <[Z.to_nat (num - 1) := stop]> l else l)
    = Z.to_nat num
    ∧ (2 ≤ num →
       last (if 1 <? num then <[Z.to_nat (num - 1) := stop]> l else l)
       = Some stop)) as Hins.
  { intros l Hl. destruct (Z.ltb_spec 1 num); (split; [|intros ?]); try lia.
    - by rewrite length_insert.
    - rewrite last_lookup, length_insert, Hl.
      replace (Init.Nat.pred (Z.to_nat num)) with (Z.to_nat (num - 1)) by lia.
      apply list_lookup_insert_eq. lia. }
  destruct (0 <? num - 1); [destruct (feqb _ _)|]; apply Hins, Hlen.
Qed.


Lemma linspace_none (start stop : F) : Numpy.linspace start stop 0 = Ok [].
Proof. reflexivity. Qed.




End LinspaceShape.

Section GridCalls.
Context {F : Type} `{PyFloat F}.



End GridCalls.

Section ChirpMassGridFacts.
Local Open Scope float_scope.


End ChirpMassGridFacts.



(** C2, as amended: for the prior [[0, 10]], the kernel [[-0.5, 0.5]] and
    overlap 2 the grid has 20 values from 0.5 to 9.5 with spacing 9/19; in
    binary64 the grid has the same 20 values up to rounding, with 0.5 and
    9.5 exact and every gap strictly between 15/32 and 31/64. *)
Theorem get_scan_chirp_masses_spec_grid :
  (∃ grid first,
     get_scan_chirp_masses Fixture.spec_Q 2%Q = Ok grid
     ∧ length grid = 20%nat
     ∧ head grid = Some first ∧ (first == (1 # 2))%Q
     ∧ last grid = Some (10 - (1 # 2))%Q
     ∧ evenly_spaced (1 # 2) (9 # 19) grid)
  ∧ (∃ grid,
       get_scan_chirp_masses Fixture.spec_float 2%float = Ok grid
       ∧ length grid = 20%nat
       ∧ head grid = Some 0.5%float
       ∧ last grid = Some 9.5%float
       ∧ Forall (λ d, PrimFloat.ltb 0.46875 d && PrimFloat.ltb d 0.484375 = true)
           (Fixture.gaps grid)).
Proof.
  split.
  - do 2 eexists. split; [vm_compute; reflexivity|].
    split; [reflexivity|]. split; [reflexivity|].
    split; [vm_compute; reflexivity|]. split; [reflexivity|].
    intros i x Hi.
    do 20 (destruct i as [|i];
           [injection Hi as <-; vm_compute; reflexivity|]).
    discriminate.
  - eexists. split; [vm_compute; reflexivity|].
    repeat split. repeat constructor.
Qed.

(** C2 as first stated fails: the grid has 20 values, not 19, and its
    spacing is not 0.5. *)
Lemma get_scan_chirp_masses_not_19 :
  (∃ grid x0 x1,
     get_scan_chirp_masses Fixture.spec_Q 2%Q = Ok grid
     ∧ length grid ≠ 19%nat
     ∧ grid !! 0%nat = Some x0 ∧ grid !! 1%nat = Some x1
     ∧ ¬ (x1 - x0 == (1 # 2))%Q)
  ∧ (∃ grid x0 x1,
       get_scan_chirp_masses Fixture.spec_float 2%float = Ok grid
       ∧ length grid ≠ 19%nat
       ∧ grid !! 0%nat = Some x0 ∧ grid !! 1%nat = Some x1
       ∧ PrimFloat.eqb (x1 - x0) 0.5 = false).
Proof.
  split.
  - do 3 eexists. split; [vm_compute; reflexivity|].
    split; [discriminate|]. split; [reflexivity|]. split; [reflexivity|].
    intros Hx. vm_compute in Hx. discriminate.
  - do 3 eexists. split; [vm_compute; reflexivity|].
    split; [discriminate|]. repeat split.
Qed.

Section TimeGridFacts.
Local Open Scope float_scope.


End TimeGridFacts.


(** C7, the run in binary64. *)
Example get_scan_times_run :
  get_scan_times Fixture.spec_float
    (Some (- Fixture.tenth, Fixture.tenth)%float) 1%float
  = Ok [Some (- Fixture.tenth)%float; Some Fixture.tenth]
  ∧ get_scan_times Fixture.spec_float None 1%float = Ok [None].
Proof. split; vm_compute; reflexivity. Qed.


(** ** The transform builder *)

Section BuilderFacts.
Context {R Act : Type}.
Variable get_activation_function_from_string : string → result Act.
Variable create_alternating_binary_mask : Z → bool → list Z.

Lemma create_base_transform_unsupported (i param_dim : Z)
    (context_dim : option Z) (kw : Nsf.BaseTransformKwargs R) :
  Nsf.base_transform_type kw ≠ "rq-coupling" →
  Nsf.base_transform_type kw ≠ "rq-autoregressive" →
  ∃ e, Nsf.create_base_transform get_activation_function_from_string
         create_alternating_binary_mask i param_dim context_dim kw
       = Raise e.
Proof.
  unfold Nsf.create_base_transform.
  intros Hc Ha. apply String.eqb_neq in Hc, Ha. rewrite Hc, Ha.
  destruct (get_activation_function_from_string _); by eexists.
Qed.

(** C9: with a mode tag other than ['rq-coupling'] and
    ['rq-autoregressive'] the builder raises, and it raises [ValueError]
    once the activation is resolved: it never returns a transform.  With
    one of the two tags and a resolved activation it returns the coupling
    transform, respectively the autoregressive one. *)
Theorem create_base_transform_mode_tag (i param_dim : Z)
    (context_dim : option Z) (kw : Nsf.BaseTransformKwargs R) :
  (Nsf.base_transform_type kw ≠ "rq-coupling" →
   Nsf.base_transform_type kw ≠ "rq-autoregressive" →
   (∃ e, Nsf.create_base_transform get_activation_function_from_string
           create_alternating_binary_mask i param_dim context_dim kw
         = Raise e)
   ∧ ∀ activation_fn,
       get_activation_function_from_string (Nsf.activation kw)
       = Ok activation_fn →
       Nsf.create_base_transform get_activation_function_from_string
         create_alternating_binary_mask i param_dim context_dim kw
       = Raise ValueError)
  ∧ (∀ activation_fn,
       get_activation_function_from_string (Nsf.activation kw)
       = Ok activation_fn →
       (Nsf.base_transform_type kw = "rq-coupling" →
        ∃ mask net,
          Nsf.create_base_transform get_activation_function_from_string
            create_alternating_binary_mask i param_dim context_dim kw
          = Ok (Nsf.PiecewiseRationalQuadraticCouplingTransform mask net
                  (Nsf.num_bins kw) "linear" (Nsf.tail_bound kw)
                  (Nsf.apply_unconditional_transform kw)))
       ∧ (Nsf.base_transform_type kw = "rq-autoregressive" →
          Nsf.create_base_transform get_activation_function_from_string
            create_alternating_binary_mask i param_dim context_dim kw
          = Ok (Nsf.MaskedPiecewiseRationalQuadraticAutoregressiveTransform
                  param_dim (Nsf.hidden_dim kw) context_dim (Nsf.num_bins kw)
                  "linear" (Nsf.tail_bound kw) (Nsf.num_transform_blocks kw)
                  true false activation_fn (Nsf.dropout_probability kw)
                  (Nsf.batch_norm kw)))).
Proof.
  split.
  - intros Hc Ha. split; [by apply create_base_transform_unsupported|].
    unfold Nsf.create_base_transform.
    apply String.eqb_neq in Hc, Ha. rewrite Hc, Ha. by intros f ->.
  - unfold Nsf.create_base_transform.
    intros f ->. cbn [mbind result_bind]. split.
    + intros ->. by do 2 eexists.
    + by intros ->.
Qed.

(** An unsupported tag also stops [create_transform] as soon as it has a
    flow step to build. *)
Lemma create_transform_mode_tag (num_flow_steps param_dim : Z)
    (context_dim : option Z) (kw : Nsf.BaseTransformKwargs R) :
  Nsf.base_transform_type kw ≠ "rq-coupling" →
  Nsf.base_transform_type kw ≠ "rq-autoregressive" →
  0 < num_flow_steps →
  ∃ e, Nsf.create_transform get_activation_function_from_string
         create_alternating_binary_mask num_flow_steps param_dim context_dim
         kw = Raise e.
Proof.
  intros Hc Ha Hsteps. unfold Nsf.create_transform.
  rewrite seqZ_cons by done. cbn [mapM].
  destruct (create_base_transform_unsupported 0 param_dim context_dim kw
              Hc Ha) as [e He].
  rewrite He. by exists e.
Qed.

End BuilderFacts.

(** C9 on the tags ['rq-spline'], ['rq-coupling'] and
    ['rq-autoregressive']. *)
Lemma create_base_transform_mode_tag_witness :
  Nsf.create_base_transform Fixture.relu_only Fixture.alternating 0 4
    (Some 128) (Fixture.kwargs "rq-spline") = Raise ValueError
  ∧ (∃ mask net,
       Nsf.create_base_transform Fixture.relu_only Fixture.alternating 0 4
         (Some 128) (Fixture.kwargs "rq-coupling")
       = Ok (Nsf.PiecewiseRationalQuadraticCouplingTransform mask net 8
               "linear" 1%Q false))
  ∧ Nsf.create_base_transform Fixture.relu_only Fixture.alternating 0 4
      (Some 128) (Fixture.kwargs "rq-autoregressive")
    = Ok (Nsf.MaskedPiecewiseRationalQuadraticAutoregressiveTransform
            4 512 (Some 128) 8 "linear" 1%Q 2 true false "relu" 0%Q false).
Proof.
  split; [|split].
  - refine (proj2 (proj1 (create_base_transform_mode_tag Fixture.relu_only
                             Fixture.alternating 0 4 (Some 128)
                             (Fixture.kwargs "rq-spline")) _ _)
              "relu"%string _);
      first [discriminate|reflexivity].
  - apply (proj2 (create_base_transform_mode_tag Fixture.relu_only
                    Fixture.alternating 0 4 (Some 128)
                    (Fixture.kwargs "rq-coupling")) "relu"%string);
      reflexivity.
  - apply (proj2 (create_base_transform_mode_tag Fixture.relu_only
                    Fixture.alternating 0 4 (Some 128)
                    (Fixture.kwargs "rq-autoregressive")) "relu"%string);
      reflexivity.
Defined.

(** ** Sampling from the wrapped flow *)

Section SampleFacts.
Context {X E Y A : Type}.

(** C8, as amended: [sample] embeds the context once when there is an
    embedding network (the flow is given the output of the network on [x],
    and [x] itself otherwise), asks the flow for [num_samples] samples, and
    squeezes the result: the entries stay in their row-major order and every
    dimension of size one is dropped.  For a flow output of shape
    [(rows, num_samples, dim)] no dimension is removed exactly when none of
    the three is one; a single context row loses the leading dimension, a
    single sample the middle one, a one-dimensional parameter space the last
    one. *)
Theorem sample_squeezed (self : Nsf.FlowWrapper X E Y A) (x : list X)
    (num_samples : Z) (context : Nsf.Context X E) (t : Nsf.Tensor A) :
  Nsf.embed self x = Ok context →
  Nsf.flow_sample self num_samples context = Ok t →
  (∀ net, Nsf.embedding_net self = Some net →
          ∃ e, net x = Ok e ∧ context = Nsf.Embedded e)
  ∧ (Nsf.embedding_net self = None → context = Nsf.Tuple x)
  ∧ Nsf.sample self x num_samples = Ok (Nsf.squeeze t)
  ∧ Nsf.flat (Nsf.squeeze t) = Nsf.flat t
  ∧ Nsf.shape (Nsf.squeeze t) = filter (λ d, d ≠ 1%nat) (Nsf.shape t)
  ∧ ∀ rows n dim : nat,
      Nsf.shape t = [rows; n; dim] →
      (Nsf.shape (Nsf.squeeze t) = [rows; n; dim]
       ↔ rows ≠ 1%nat ∧ n ≠ 1%nat ∧ dim ≠ 1%nat)
      ∧ (rows = 1%nat →
         Nsf.shape (Nsf.squeeze t) = filter (λ d, d ≠ 1%nat) [n; dim])
      ∧ (rows ≠ 1%nat → n = 1%nat →
         Nsf.shape (Nsf.squeeze t) = rows :: filter (λ d, d ≠ 1%nat) [dim])
      ∧ (rows ≠ 1%nat → n ≠ 1%nat → dim = 1%nat →
         Nsf.shape (Nsf.squeeze t) = [rows; n]).
Proof.
  intros Hembed Hflow. split; [|split; [|split; [|split; [done|split; [done|]]]]].
  - intros net Hnet. unfold Nsf.embed in Hembed. rewrite Hnet in Hembed.
    destruct (net x) as [e|]; simplify_eq/=. by exists e.
  - intros Hnone. unfold Nsf.embed in Hembed. rewrite Hnone in Hembed.
    congruence.
  - unfold Nsf.sample. rewrite Hembed. cbn [mbind result_bind].
    by rewrite Hflow.
  - intros rows n dim Hshape. unfold Nsf.squeeze. cbn [Nsf.shape].
    rewrite Hshape. rewrite !filter_cons, filter_nil.
    repeat case_decide; subst; split_and!; try done;
      try (split; [intros Heq; simplify_eq/=; lia | intros (? & ? & ?); done]).
    all: try (split; [intros Heq; apply (f_equal length) in Heq; simpl in Heq; lia
                     | intros (? & ? & ?); done]).
Qed.

End SampleFacts.

(** C8 on a context of three rows with two samples each in a
    two-dimensional parameter space: nothing is squeezed. *)
Lemma sample_squeezed_witness :
  ∃ t, Nsf.embed (Fixture.flow 2) [Fixture.context 3]
       = Ok (Nsf.Embedded (Fixture.context 3))
       ∧ Nsf.flow_sample (Fixture.flow 2) 2
           (Nsf.Embedded (Fixture.context 3)) = Ok t
       ∧ Nsf.sample (Fixture.flow 2) [Fixture.context 3] 2
         = Ok (Nsf.squeeze t)
       ∧ Nsf.shape (Nsf.squeeze t) = [3; 2; 2]%nat
       ∧ Nsf.flat (Nsf.squeeze t)
         = [0; 1; 10; 11; 100; 101; 110; 111; 200; 201; 210; 211].
Proof.
  eexists. split; [reflexivity|]. split; [reflexivity|].
  split; [|split; reflexivity].
  eapply (sample_squeezed (Fixture.flow 2) [Fixture.context 3] 2
            (Nsf.Embedded (Fixture.context 3))); reflexivity.
Defined.

(** C8 as first stated fails.  With two context rows and two samples each
    in a one-dimensional parameter space the flow returns shape
    [(2, 2, 1)] and [sample] returns shape [(2, 2)]: a dimension is removed.
    With three context rows and one sample each, as [main] calls it, the
    sample dimension is removed although the context has several rows. *)
Lemma sample_squeezes_every_unit_dimension :
  (∃ t t',
     Nsf.flow_sample (Fixture.flow 1) 2 (Nsf.Embedded (Fixture.context 2))
     = Ok t
     ∧ Nsf.shape t = [2; 2; 1]%nat
     ∧ Nsf.sample (Fixture.flow 1) [Fixture.context 2] 2 = Ok t'
     ∧ Nsf.shape t' = [2; 2]%nat
     ∧ Nsf.shape t' ≠ Nsf.shape t)
  ∧ (∃ t t',
       Nsf.flow_sample (Fixture.flow 2) 1 (Nsf.Embedded (Fixture.context 3))
       = Ok t
       ∧ Nsf.shape t = [3; 1; 2]%nat
       ∧ Nsf.sample (Fixture.flow 2) [Fixture.context 3] 1 = Ok t'
       ∧ Nsf.shape t' = [3; 2]%nat
       ∧ Nsf.shape t' ≠ Nsf.shape t).
Proof.
  split; do 2 eexists; (split; [reflexivity|]); (split; [reflexivity|]);
    (split; [reflexivity|]); (split; [reflexivity|]); discriminate.
Qed.

(** * Further properties *)

(** ** The chirp-mass grid *)

Section ChirpMassGridAnyFloat.
Context {F : Type} `{PyFloat F}.

(** X3: in any float arithmetic, rounded or exact, once the ratio of the
    widths and its ceiling [n >= 0] are computed the grid has exactly [n]
    values, and with two values or more its last value is
    [prior_max - kernel_max] itself, without accumulated rounding. *)
Theorem get_scan_chirp_masses_exact_ends (model_metadata : Metadata F)
    (prior kernel : Prior F) (overlap_factor ratio : F) (n : Z) :
  intrinsic_prior model_metadata !! "chirp_mass" = Some prior →
  gnpe_chirp_kernel model_metadata !! "chirp_mass" = Some kernel →
  truediv (fsub (maximum prior) (minimum prior))
    (fsub (maximum kernel) (minimum kernel)) = Ok ratio →
  ceil (fmul ratio overlap_factor) = Ok n →
  0 ≤ n →
  ∃ grid,
    get_scan_chirp_masses model_metadata overlap_factor = Ok grid
    ∧ Z.of_nat (length grid) = n
    ∧ (2 ≤ n → last grid = Some (fsub (maximum prior) (maximum kernel))).
Proof.
  intros Hprior Hkernel Hratio Hceil Hn.
  destruct (linspace_length_last (fsub (minimum prior) (minimum kernel))
              (fsub (maximum prior) (maximum kernel)) n Hn)
    as (grid & Hrun & Hlen & Hlast).
  exists grid. split; [|split; [lia|done]].
  unfold get_scan_chirp_masses.
  rewrite (getitem_Some _ _ _ Hprior), (getitem_Some _ _ _ Hkernel).
  cbn [mbind result_bind]. rewrite Hratio. cbn [mbind result_bind].
  rewrite Hceil. exact Hrun.
Qed.

End ChirpMassGridAnyFloat.

(** X3 in binary64 on the prior [[0, 10]] with the kernel [[-0.5, 0.5]] and
    overlap 2: 20 values, the last one [9.5]. *)
Lemma get_scan_chirp_masses_exact_ends_witness :
  ∃ grid,
    get_scan_chirp_masses Fixture.spec_float 2%float = Ok grid
    ∧ Z.of_nat (length grid) = 20
    ∧ last grid = Some 9.5%float.
Proof.
  destruct (get_scan_chirp_masses_exact_ends Fixture.spec_float
              (Fixture.bounds 0 10)%float (Fixture.bounds (-0.5) 0.5)%float
              2%float 10%float 20)
    as (grid & Hrun & Hlen & Hlast);
    try first [reflexivity|discriminate].
  exists grid. split; [exact Hrun|]. split; [exact Hlen|].
  rewrite Hlast by discriminate. reflexivity.
Defined.

(** ** The grid of trial offsets *)

Section TimeGridMore.
Context {F : Type} `{PyFloat F}.

(** X8: with a window requested and a time prior with [minimum < maximum]
    in the metadata, an overlap factor equal to zero makes the controller
    raise [ZeroDivisionError], whatever the window: the spacing is computed
    before the window is looked at. *)
Theorem get_scan_times_zero_spacing (model_metadata : Metadata F)
    (prior : Prior F) (t_min t_max overlap_factor : F) :
  extrinsic_prior model_metadata !! "geocent_time" = Some prior →
  fleb (maximum prior) (minimum prior) = false →
  feqb overlap_factor (of_int 0) = true →
  get_scan_times model_metadata (Some (t_min, t_max)) overlap_factor
  = Raise ZeroDivisionError.
Proof.
  intros Hprior _ Hzero. unfold get_scan_times.
  rewrite (getitem_Some _ _ _ Hprior). cbn [mbind result_bind].
  unfold truediv. by rewrite Hzero.
Qed.

End TimeGridMore.

(** X8 in binary64 on the overlap factors [0.0] and [-0.0]. *)
Lemma get_scan_times_zero_spacing_witness :
  get_scan_times Fixture.spec_float (Some (0, 1)%float) 0%float
  = Raise ZeroDivisionError
  ∧ get_scan_times Fixture.spec_float (Some (0, 1)%float) (-0)%float
    = Raise ZeroDivisionError.
Proof.
  split.
  - apply (get_scan_times_zero_spacing Fixture.spec_float
             (Fixture.bounds (- Fixture.tenth) Fixture.tenth)%float
             0%float 1%float 0%float); reflexivity.
  - apply (get_scan_times_zero_spacing Fixture.spec_float
             (Fixture.bounds (- Fixture.tenth) Fixture.tenth)%float
             0%float 1%float (-0)%float); reflexivity.
Defined.

(** ** The batch and the sample table *)

Section BatchMore.
Context {F : Type} `{PyFloat F} {Data T : Type}.
Variable transform : Data → F → Out T.
Variable zeros_like : T → T.

(** X9: the batch of two grids put end to end is the batch of the first
    followed by the batch of the second: a block depends on its own grid
    value only, not on its place in the grid or on the other values. *)
Theorem generate_data_for_scan_app (data : Data) (a b : list F)
    (num_samples : Z) :
  a ≠ [] → b ≠ [] → 0 ≤ num_samples →
  ∃ wa ca wb cb,
    generate_data_for_scan transform zeros_like data a num_samples
    = Ok (wa, ca)
    ∧ generate_data_for_scan transform zeros_like data b num_samples
      = Ok (wb, cb)
    ∧ generate_data_for_scan transform zeros_like data (a ++ b) num_samples
      = Ok (wa ++ wb, ca ++ cb).
Proof.
  intros Ha Hb Hns.
  do 4 eexists. split; [by apply generate_data_for_scan_blocks|].
  split; [by apply generate_data_for_scan_blocks|].
  rewrite generate_data_for_scan_blocks; [|by destruct a|done].
  by rewrite !bind_app.
Qed.

End BatchMore.

Section FilterAll.
Context {A : Type} (P : A → Prop) `{∀ x, Decision (P x)}.

Lemma filter_all (l : list A) : Forall P l → filter P l = l.
Proof.
  induction 1 as [|x l Hx _ IH]; [done|].
  by rewrite filter_cons_True, IH.
Qed.

Lemma filter_none (l : list A) : Forall (λ x, ¬ P x) l → filter P l = [].
Proof.
  induction 1 as [|x l Hx _ IH]; [done|].
  by rewrite filter_cons_False.
Qed.

End FilterAll.

Section SamplesMore.
Context {F : Type} `{PyFloat F}.

(** X10: with one offset [delta_chirp_mass] per row of the batch, the
    samples get a column [chirp_mass] whose entry [i] is the grid value of
    index [i // num_samples] plus the offset of row [i]; the column
    [delta_chirp_mass] is removed and the other columns are kept. *)
Theorem with_chirp_mass_column (chirp_masses : list F) (num_samples : Z)
    (samples : Samples F) (delta : list F) :
  0 < num_samples →
  samples !! "delta_chirp_mass" = Some delta →
  Z.of_nat (length delta) = Z.of_nat (length chirp_masses) * num_samples →
  ∃ samples' column,
    with_chirp_mass chirp_masses num_samples samples = Ok samples'
    ∧ samples' !! "chirp_mass" = Some column
    ∧ samples' !! "delta_chirp_mass" = None
    ∧ (∀ k, k ≠ "chirp_mass" → k ≠ "delta_chirp_mass" →
            samples' !! k = samples !! k)
    ∧ length column = length delta
    ∧ ∀ (i : nat) d,
        delta !! i = Some d →
        ∃ x, chirp_masses !! (i / Z.to_nat num_samples)%nat = Some x
             ∧ column !! i = Some (fadd x d).
Proof.
  intros Hns Hdelta Hlen.
  set (repeated := chirp_masses ≫= replicate (Z.to_nat num_samples)).
  assert (length repeated = length delta) as Hrep.
  { unfold repeated.
    rewrite (blocks_length _ (Z.to_nat num_samples))
      by (intros; apply length_replicate). lia. }
  exists (<["chirp_mass" := zip_with fadd repeated delta]>
            (delete "delta_chirp_mass" samples)),
         (zip_with fadd repeated delta).
  split; [|split; [|split; [|split; [|split]]]].
  - unfold with_chirp_mass. rewrite (getitem_Some _ _ _ Hdelta).
    cbn [mbind result_bind]. unfold Arrays.repeat_.
    destruct (Z.ltb_spec num_samples 0); [lia|].
    cbn [mbind result_bind]. fold repeated. unfold Arrays.add_.
    by rewrite bool_decide_eq_true_2.
  - by rewrite lookup_insert_eq.
  - rewrite lookup_insert_ne by done. by rewrite lookup_delete_eq.
  - intros k Hk1 Hk2. by rewrite lookup_insert_ne, lookup_delete_ne.
  - rewrite length_zip_with. lia.
  - intros i d Hd.
    assert (i < length repeated)%nat as Hi
      by (rewrite Hrep; by eapply lookup_lt_Some).
    destruct (lookup_lt_is_Some_2 _ _ Hi) as [x Hx].
    exists x. split.
    + unfold repeated in Hx.
      rewrite (blocks_lookup id) in Hx by lia.
      by destruct (chirp_masses !! _); simplify_eq/=.
    + rewrite lookup_zip_with, Hx. simpl. by rewrite Hd.
Qed.

(** X11: with one log-prior per row the filter returns tables of one
    length, never longer than the input, and filtering its output again
    changes nothing; a table that lies in the support of the prior is
    returned as it is, and a table with no row in the support becomes
    empty. *)
Theorem prior_filter_idempotent (theta : list (Row F)) (log_prior : list F) :
  length log_prior = length theta →
  ∃ theta' log_prior',
    prior_filter theta log_prior = Ok (theta', log_prior')
    ∧ length theta' = length log_prior'
    ∧ (length theta' ≤ length theta)%nat
    ∧ prior_filter theta' log_prior' = Ok (theta', log_prior')
    ∧ (Forall (λ x, gt_neg_inf x = true) log_prior →
       theta' = theta ∧ log_prior' = log_prior)
    ∧ (Forall (λ x, gt_neg_inf x = false) log_prior →
       theta' = [] ∧ log_prior' = []).
Proof.
  intros Hlen. do 2 eexists. split; [by apply prior_filter_kept|].
  assert (∀ (l : list (Row F)) (lp : list F),
    Forall (λ x, gt_neg_inf x = true) lp → kept l lp = zip l lp) as Hall.
  { intros l lp Hin. unfold kept. apply filter_all.
    apply Forall_forall. intros [r x] Hrx%elem_of_zip_r. simpl.
    rewrite Forall_forall in Hin. by rewrite (Hin x Hrx). }
  split; [by rewrite !length_fmap|].
  split.
  { rewrite length_fmap. unfold kept.
    etransitivity; [apply length_filter|]. rewrite length_zip. lia. }
  split.
  { rewrite prior_filter_kept by (by rewrite !length_fmap).
    assert (kept (kept theta log_prior).*1 (kept theta log_prior).*2
            = kept theta log_prior) as ->; [|done].
    rewrite (Hall (kept theta log_prior).*1 (kept theta log_prior).*2).
    - apply zip_fst_snd.
    - apply Forall_forall. intros x [[r y] [-> Hin]]%list_elem_of_fmap.
      simpl. by eapply kept_support. }
  split.
  - intros Hin. rewrite Hall by done.
    by rewrite fst_zip, snd_zip by lia.
  - intros Hout. assert (kept theta log_prior = []) as ->; [|done].
    unfold kept. apply filter_none.
    apply Forall_forall. intros [r x] Hrx%elem_of_zip_r. simpl.
    rewrite Forall_forall in Hout. rewrite (Hout x Hrx). tauto.
Qed.

End SamplesMore.

Section ArgmaxBounds.
Context {F : Type} `{PyFloat F}.

Lemma argmax_from_lt (ip : list F) (mp : F) (max_ind i : nat) :
  (max_ind < i)%nat →
  (Arrays.argmax_from mp max_ind i ip < i + length ip)%nat.
Proof.
  revert mp max_ind i. induction ip as [|x ip IH]; intros mp max_ind i Hi.
  - simpl. lia.
  - cbn [Arrays.argmax_from length].
    destruct (negb (fleb x mp)); [destruct (is_nan x)|].
    + lia.
    + specialize (IH x i (S i)). lia.
    + specialize (IH mp max_ind (S i)). lia.
Qed.

(** In any float arithmetic the position [argmax] returns is a position of
    the array. *)
Lemma argmax_lt (a : list F) :
  a ≠ [] → ∃ i, Arrays.argmax a = Ok i ∧ (i < length a)%nat.
Proof.
  destruct a as [|mp ip]; [done|]. intros _. eexists. split; [done|].
  destruct (is_nan mp); [simpl; lia|].
  pose proof (argmax_from_lt ip mp 0 1). simpl. lia.
Qed.

End ArgmaxBounds.

Section ScoreMore.
Context {F : Type} `{PyFloat F} {W : Type}.
Variable ln_prob : list (Row F) → list F.
Variable log_likelihood_multi :
  gmap string (gmap string W) → list (Row F) → list (F * F).

(** X12: when no sample lies in the support of the prior (and the
    evaluator returns no score for an empty table), the pass does not
    contribute an empty table: it raises [ValueError], from [np.argmax] on
    the empty array of log-likelihoods. *)
Theorem score_samples_no_support (dt : option F) (o : EventDataset F W)
    (samples : Samples F) (theta : list (Row F)) :
  DataFrame samples = Ok theta →
  length (ln_prob theta) = length theta →
  Forall (λ x, gt_neg_inf x = false) (ln_prob theta) →
  log_likelihood_multi (data o) [] = [] →
  score_samples ln_prob log_likelihood_multi dt o samples = Raise ValueError.
Proof.
  intros Hdf Hlen Hout Hnone. unfold score_samples.
  rewrite Hdf. cbn [mbind result_bind].
  rewrite prior_filter_kept by done.
  assert (kept theta (ln_prob theta) = []) as ->.
  { unfold kept. apply filter_none. apply Forall_forall.
    intros [r x] Hrx%elem_of_zip_r. simpl.
    rewrite Forall_forall in Hout. rewrite (Hout x Hrx). tauto. }
  cbn [fmap list_fmap mbind result_bind]. by rewrite Hnone.
Qed.

(** X13: the table a pass returns has one row per sample in the support of
    the prior, in the order of the samples: the row of the sample with the
    three columns [log_likelihood], [snr] and [time_event] set to its two
    scores and to the recorded event time of the dataset. *)
Theorem score_samples_table (dt : option F) (o : EventDataset F W)
    (samples : Samples F) (theta table : list (Row F)) (report : Report F) :
  DataFrame samples = Ok theta →
  length (ln_prob theta) = length theta →
  score_samples ln_prob log_likelihood_multi dt o samples
  = Ok (report, table) →
  ∃ time_event,
    settings o !! "time_event" = Some time_event
    ∧ length table = length (kept theta (ln_prob theta))
    ∧ ∀ (i : nat) (row : Row F) (score : F * F),
        (kept theta (ln_prob theta)).*1 !! i = Some row →
        log_likelihood_multi (data o) (kept theta (ln_prob theta)).*1 !! i
        = Some score →
        table !! i
        = Some (<["time_event" := time_event]>
                  (<["snr" := score.2]>
                     (<["log_likelihood" := score.1]> row))).
Proof.
  intros Hdf Hlen. unfold score_samples.
  rewrite Hdf. cbn [mbind result_bind].
  rewrite prior_filter_kept by done. cbn [mbind result_bind].
  set (rows := (kept theta (ln_prob theta)).*1).
  set (scored := log_likelihood_multi (data o) rows).
  destruct (Arrays.add_ _ _); [|done]. cbn [mbind result_bind].
  destruct (select_trigger _ _ _ _ _) as [r|]; [|done].
  cbn [mbind result_bind]. unfold set_column.
  case_bool_decide as Hl1; [|done]. cbn [mbind result_bind].
  case_bool_decide as Hl2; [|done]. cbn [mbind result_bind].
  destruct (settings o !! "time_event") as [te|] eqn:Hte.
  2:{ unfold getitem. by rewrite Hte. }
  rewrite (getitem_Some _ _ _ Hte). cbn [mbind result_bind].
  intros [= <- <-]. exists te. split; [done|].
  rewrite length_fmap, !length_zip_with, !length_fmap in *.
  split; [unfold rows in *; rewrite length_fmap in *; lia|].
  intros i row score Hrow Hscore.
  rewrite list_lookup_fmap, !lookup_zip_with, !list_lookup_fmap.
  by rewrite Hrow, Hscore.
Qed.

End ScoreMore.

Section TriggerMore.
Context {F : Type} `{PyFloat F}.

(** X14: in any float arithmetic, NaN included, the trigger selection
    returns on a table that has at least one row, one log-likelihood and
    one SNR per row, the two columns it reads and a recorded event time; the
    chirp mass, the SNR and the coalescence time it reports are those of
    one and the same row, the one at the position of [np.argmax]. *)
Theorem select_trigger_returns (dt : option F) (theta : list (Row F))
    (log_likelihoods snrs : list F) (settings : gmap string F)
    (time_event : F) :
  theta ≠ [] →
  length log_likelihoods = length theta →
  length snrs = length theta →
  (∀ row, row ∈ theta →
     is_Some (row !! "chirp_mass") ∧ is_Some (row !! "geocent_time")) →
  settings !! "time_event" = Some time_event →
  ∃ i row snr chirp_mass geocent_time,
    Arrays.argmax log_likelihoods = Ok i
    ∧ theta !! i = Some row
    ∧ snrs !! i = Some snr
    ∧ row !! "chirp_mass" = Some chirp_mass
    ∧ row !! "geocent_time" = Some geocent_time
    ∧ select_trigger dt theta log_likelihoods snrs settings
      = Ok {| report_dt := dt;
              chirp_mass_trigger := chirp_mass;
              snr_trigger := snr;
              gps_trigger := fadd time_event geocent_time |}.
Proof.
  intros Hne Hll Hsnr Hcols Hte.
  destruct (argmax_lt log_likelihoods) as (i & Hi & Hlt).
  { intros ->. destruct theta; simplify_eq/=. }
  destruct (lookup_lt_is_Some_2 theta i) as [row Hrow]; [lia|].
  destruct (lookup_lt_is_Some_2 snrs i) as [snr Hsnri]; [lia|].
  destruct (Hcols row) as [[cm Hcm] [gt Hgt]].
  { by eapply list_elem_of_lookup_2. }
  destruct (column_lookup theta "chirp_mass") as (ccol & Hccol & Hcrows).
  { intros r Hr. by apply Hcols. }
  destruct (column_lookup theta "geocent_time") as (gcol & Hgcol & Hgrows).
  { intros r Hr. by apply Hcols. }
  exists i, row, snr, cm, gt. repeat split; try done.
  unfold select_trigger. rewrite Hccol, Hgcol, Hi.
  cbn [mbind result_bind].
  rewrite (index_Some ccol i cm) by (by rewrite (Hcrows i row)).
  cbn [mbind result_bind].
  rewrite (index_Some gcol i gt) by (by rewrite (Hgrows i row)).
  cbn [mbind result_bind].
  rewrite (index_Some snrs i snr), (getitem_Some _ _ _ Hte) by done.
  done.
Qed.

End TriggerMore.

(** X9 on the grids [[1.5]] and [[2.5, 3.5]] with four samples each. *)
Lemma generate_data_for_scan_app_witness :
  ∃ wa ca wb cb,
    generate_data_for_scan Fixture.echo Fixture.zero () [1.5%float] 4
    = Ok (wa, ca)
    ∧ generate_data_for_scan Fixture.echo Fixture.zero ()
        [2.5%float; 3.5%float] 4 = Ok (wb, cb)
    ∧ generate_data_for_scan Fixture.echo Fixture.zero ()
        ([1.5%float] ++ [2.5%float; 3.5%float]) 4
      = Ok (wa ++ wb, ca ++ cb).
Proof.
  apply (generate_data_for_scan_app Fixture.echo Fixture.zero ()
           [1.5%float] [2.5%float; 3.5%float] 4);
    discriminate.
Defined.

(** X10 on the grid [[1, 2]] with one sample per grid value. *)
Lemma with_chirp_mass_column_witness :
  ∃ samples' column,
    with_chirp_mass [1; 2]%float 1 Fixture.samples2 = Ok samples'
    ∧ samples' !! "chirp_mass" = Some column
    ∧ samples' !! "delta_chirp_mass" = None
    ∧ length column = 2%nat.
Proof.
  destruct (with_chirp_mass_column [1; 2]%float 1 Fixture.samples2
              [0.25; 0.5]%float)
    as (samples' & column & Hrun & Hcol & Hdel & _ & Hlen & _);
    try reflexivity.
  exists samples', column. repeat split; assumption.
Defined.

(** X11 on three rows of which one lies in the support. *)
Lemma prior_filter_idempotent_witness :
  ∃ theta' log_prior',
    prior_filter Fixture.theta3 (Fixture.ln_prob3 Fixture.theta3)
    = Ok (theta', log_prior')
    ∧ prior_filter theta' log_prior' = Ok (theta', log_prior').
Proof.
  destruct (prior_filter_idempotent Fixture.theta3
              (Fixture.ln_prob3 Fixture.theta3))
    as (theta' & lp' & Hrun & _ & _ & Hagain & _); [reflexivity|].
  exists theta', lp'. split; assumption.
Defined.

(** X12 on two samples, both outside the support. *)
Lemma score_samples_no_support_witness :
  score_samples Fixture.ln_prob_outside Fixture.evaluate None Fixture.event
    Fixture.table2
  = Raise ValueError.
Proof.
  apply (score_samples_no_support Fixture.ln_prob_outside Fixture.evaluate
           None Fixture.event Fixture.table2
           [Fixture.row 1 0.125; Fixture.row 2 0.375]%float).
  - vm_compute. reflexivity.
  - reflexivity.
  - repeat constructor.
  - reflexivity.
Defined.

(** X13 on two samples, both in the support. *)
Lemma score_samples_table_witness :
  ∃ report table,
    score_samples Fixture.ln_prob_inside Fixture.evaluate None Fixture.event
      Fixture.table2 = Ok (report, table)
    ∧ length table = 2%nat.
Proof.
  destruct (score_samples Fixture.ln_prob_inside Fixture.evaluate None
              Fixture.event Fixture.table2) as [[report table]|e] eqn:Hrun.
  - destruct (score_samples_table Fixture.ln_prob_inside Fixture.evaluate
                None Fixture.event Fixture.table2
                [Fixture.row 1 0.125; Fixture.row 2 0.375]%float table report)
      as (te & Hte & Hlen & Hrows);
      [vm_compute; reflexivity|reflexivity|exact Hrun|].
    exists report, table. split; [reflexivity|].
    rewrite Hlen. vm_compute. reflexivity.
  - apply (f_equal is_Ok) in Hrun. vm_compute in Hrun. discriminate.
Defined.

(** X14 on three rows whose second log-likelihood is NaN: the selection
    returns, with the values of the second row. *)
Lemma select_trigger_returns_witness :
  ∃ row snr chirp_mass geocent_time,
    Arrays.argmax [1; nan; 3]%float = Ok 1%nat
    ∧ Fixture.theta3 !! 1%nat = Some row
    ∧ row !! "chirp_mass" = Some chirp_mass
    ∧ row !! "geocent_time" = Some geocent_time
    ∧ select_trigger None Fixture.theta3 [1; nan; 3]%float
        [10; 20; 30]%float (Fixture.settings_at 1000%float)
      = Ok {| report_dt := None;
              chirp_mass_trigger := chirp_mass;
              snr_trigger := snr;
              gps_trigger := fadd 1000%float geocent_time |}.
Proof.
  destruct (select_trigger_returns None Fixture.theta3 [1; nan; 3]%float
              [10; 20; 30]%float (Fixture.settings_at 1000%float)
              1000%float)
    as (i & row & snr & cm & gt & Hi & Hrow & Hsnr & Hcm & Hgt & Hsel).
  - discriminate.
  - reflexivity.
  - reflexivity.
  - intros row Hrow. unfold Fixture.theta3 in Hrow.
    repeat (apply elem_of_cons in Hrow as [->|Hrow]; [by split; eexists|]).
    by apply elem_of_nil in Hrow.
  - reflexivity.
  - assert (i = 1%nat) as -> by (vm_compute in Hi; congruence).
    exists row, snr, cm, gt. repeat split; done.
Defined.

(** ** The time translation and the loop of [main] *)

Section TranslateMore.
Context {F : Type} `{PyFloat F} {W : Type}.
Variable time_translate_data : F → F → F → W → F → W.

Lemma getitem_Ok_inv {V : Type} (d : gmap string V) (k : string) (v : V) :
  getitem d k = Ok v → d !! k = Some v.
Proof. unfold getitem. destruct (d !! k); intros; by simplify_eq. Qed.

Lemma truediv_Ok_inv (x y z : F) :
  truediv x y = Ok z → feqb y (of_int 0) = false ∧ z = fquot x y.
Proof.
  unfold truediv. destruct (feqb y (of_int 0)); intros; by simplify_eq.
Qed.

(** X15: the translation returns exactly when the reference points to a
    dataset whose settings hold [f_min], [f_max], a duration [T] other than
    zero and [time_event], and whose data hold a [waveform] entry; in every
    other case it raises. *)
Theorem time_translate_event_dataset_returns_iff
    (h : list (EventDataset F W)) (event_dataset : loc) (dt : F) :
  (∃ h', time_translate_event_dataset time_translate_data event_dataset dt h
         = Ok ((), h'))
  ↔ ∃ o f_min f_max T_ time_event old,
      h !! event_dataset = Some o
      ∧ settings o !! "f_min" = Some f_min
      ∧ settings o !! "f_max" = Some f_max
      ∧ settings o !! "T" = Some T_
      ∧ feqb T_ (of_int 0) = false
      ∧ data o !! "waveform" = Some old
      ∧ settings o !! "time_event" = Some time_event.
Proof.
  split.
  - intros [h' Hrun]. unfold time_translate_event_dataset in Hrun.
    apply M_bind_inv in Hrun as (o & h0 & [Ho ->]%deref_inv & Hrun).
    apply M_bind_inv in Hrun as (f_min & h1 & [Hmin ->]%lift_inv & Hrun).
    apply M_bind_inv in Hrun as (f_max & h2 & [Hmax ->]%lift_inv & Hrun).
    apply M_bind_inv in Hrun as (T_ & h3 & [HT ->]%lift_inv & Hrun).
    apply M_bind_inv in Hrun as (df & h4 & [Hdf ->]%lift_inv & Hrun).
    apply M_bind_inv in Hrun as (old & h5 & [Hold ->]%lift_inv & Hrun).
    apply M_bind_inv in Hrun as ([] & h6 & ->%store_inv & Hrun).
    apply M_bind_inv in Hrun as (o1 & h7 & [Ho1 ->]%deref_inv & Hrun).
    apply M_bind_inv in Hrun as (te & h8 & [Hte ->]%lift_inv & Hrun).
    rewrite list_lookup_insert_eq in Ho1 by by eapply lookup_lt_Some.
    injection Ho1 as <-. cbn [settings] in Hte.
    apply truediv_Ok_inv in Hdf as [HT0 _].
    exists o, f_min, f_max, T_, te, old.
    repeat split; by (done || apply getitem_Ok_inv).
  - intros (o & f_min & f_max & T_ & te & old & Ho & Hmin & Hmax & HT & HT0
            & Hold & Hte).
    eexists. by eapply time_translate_event_dataset_run.
Qed.

(** X16: two translations in a row, by [dt1] and then by [dt2], add up: the
    event time is reduced by [dt1] and then by [dt2], every waveform is
    passed through [time_translate_data] twice with the same frequency
    domain, and the store has as many objects as before. *)
Theorem time_translate_event_dataset_twice (h : list (EventDataset F W))
    (event_dataset : loc) (o : EventDataset F W)
    (dt1 dt2 f_min f_max T_ time_event : F) (old : gmap string W) :
  h !! event_dataset = Some o →
  settings o !! "f_min" = Some f_min →
  settings o !! "f_max" = Some f_max →
  settings o !! "T" = Some T_ →
  feqb T_ (of_int 0) = false →
  data o !! "waveform" = Some old →
  settings o !! "time_event" = Some time_event →
  ∃ h' o',
    (time_translate_event_dataset time_translate_data event_dataset dt1
     ≫= λ _, time_translate_event_dataset time_translate_data event_dataset
               dt2) h
    = Ok ((), h')
    ∧ length h' = length h
    ∧ h' !! event_dataset = Some o'
    ∧ settings o' !! "time_event" = Some (fsub (fsub time_event dt1) dt2)
    ∧ data o' !! "waveform"
      = Some ((λ v,
                 time_translate_data f_min f_max (fquot (of_int 1) T_)
                   (time_translate_data f_min f_max (fquot (of_int 1) T_)
                      v dt1) dt2) <$> old)
    ∧ (∀ k, k ≠ "waveform" → data o' !! k = data o !! k)
    ∧ (∀ k, k ≠ "time_event" → settings o' !! k = settings o !! k).
Proof.
  intros Ho Hmin Hmax HT HT0 Hold Hte.
  assert (event_dataset < length h)%nat as Hlt by by eapply lookup_lt_Some.
  set (o1 := translated time_translate_data o dt1 f_min f_max T_ time_event
               old).
  set (new := (λ v, time_translate_data f_min f_max (fquot (of_int 1) T_)
                      v dt1) <$> old).
  do 2 eexists. split.
  { unfold mbind at 1, M_bind.
    rewrite (time_translate_event_dataset_run _ h event_dataset o dt1 f_min
               f_max T_ time_event old) by done.
    fold o1.
    apply (time_translate_event_dataset_run _ _ event_dataset o1 dt2 f_min
             f_max T_ (fsub time_event dt1) new).
    - by rewrite list_lookup_insert_eq.
    - unfold o1, translated. cbn [settings]. by rewrite lookup_insert_ne.
    - unfold o1, translated. cbn [settings]. by rewrite lookup_insert_ne.
    - unfold o1, translated. cbn [settings]. by rewrite lookup_insert_ne.
    - done.
    - unfold o1, translated. cbn [data]. by rewrite lookup_insert_eq.
    - unfold o1, translated. cbn [settings]. by rewrite lookup_insert_eq. }
  split; [by rewrite !length_insert|].
  split; [by rewrite list_lookup_insert_eq by by rewrite length_insert|].
  unfold translated, o1, translated. cbn [data settings].
  split; [by rewrite lookup_insert_eq|].
  split.
  { rewrite lookup_insert_eq. f_equal. unfold new.
    by rewrite <- map_fmap_compose. }
  split.
  - intros k Hk. by rewrite !lookup_insert_ne.
  - intros k Hk. by rewrite !lookup_insert_ne.
Qed.

End TranslateMore.

(** X15 on the dataset recorded at time 1000. *)
Lemma time_translate_event_dataset_returns_iff_witness :
  ∃ h', time_translate_event_dataset Fixture.rotate 0%nat 0.5%float
          [Fixture.event] = Ok ((), h').
Proof.
  apply (proj2 (time_translate_event_dataset_returns_iff Fixture.rotate
                  [Fixture.event] 0%nat 0.5%float)).
  exists Fixture.event, 20%float, 1024%float, 8%float, 1000%float,
    {[ "H1" := [1; 2]%float ]}.
  repeat split; reflexivity.
Defined.

(** X16 on the same dataset, translated by 0.5 and then by 0.25. *)
Lemma time_translate_event_dataset_twice_witness :
  ∃ h' o',
    (time_translate_event_dataset Fixture.rotate 0%nat 0.5%float
     ≫= λ _, time_translate_event_dataset Fixture.rotate 0%nat 0.25%float)
      [Fixture.event]
    = Ok ((), h')
    ∧ h' !! 0%nat = Some o'
    ∧ settings o' !! "time_event" = Some 999.25%float.
Proof.
  destruct (time_translate_event_dataset_twice Fixture.rotate
              [Fixture.event] 0%nat Fixture.event 0.5%float 0.25%float
              20%float 1024%float 8%float 1000%float
              {[ "H1" := [1; 2]%float ]})
    as (h' & o' & Hrun & _ & Ho' & Hte & _); try reflexivity.
  exists h', o'. repeat split; assumption.
Defined.

Section MainMore.
Context {F : Type} `{PyFloat F} {W T Smp : Type}.
Variable time_translate_data : F → F → F → W → F → W.
Variable event_file : string → result (EventDataset F W).
Variable transform_pre : gmap string (gmap string W) → F → Out T.
Variable zeros_like : T → T.
Variable model_sample : list T → list T → result Smp.
Variable transform_post : Smp → result (Samples F).
Variable ln_prob : list (Row F) → list F.
Variable log_likelihood_multi :
  gmap string (gmap string W) → list (Row F) → list (F * F).

Local Abbreviation pass :=
  (scan_pass time_translate_data event_file transform_pre zeros_like
     model_sample transform_post ln_prob log_likelihood_multi).
Local Abbreviation run :=
  (main time_translate_data event_file transform_pre zeros_like model_sample
     transform_post ln_prob log_likelihood_multi).

(** The loop of [main], from any state of its accumulators. *)
Lemma main_loop_frame (event_data : string) (chirp_masses : list F)
    (num_samples : Z) (times : list (option F))
    (acc : M (list (EventDataset F W)) (list (Report F) * list (Row F)))
    (n : nat) :
  (∀ h r h', acc h = Ok (r, h') →
     length r.1 = n
     ∧ length h' = (length h + n)%nat
     ∧ ∀ l, (l < length h)%nat → h' !! l = h !! l) →
  ∀ h r h',
    foldl
      (λ (acc : M (list (EventDataset F W))
                  (list (Report F) * list (Row F))) dt,
         '(reports, theta_out) ← acc;
         '(report, theta) ← pass event_data chirp_masses num_samples dt;
         mret (reports ++ [report], theta_out ++ theta))
      acc times h = Ok (r, h') →
    length r.1 = (n + length times)%nat
    ∧ length h' = (length h + (n + length times))%nat
    ∧ ∀ l, (l < length h)%nat → h' !! l = h !! l.
Proof.
  revert acc n. induction times as [|dt times IH]; intros acc n Hacc h r h'.
  - simpl. intros Hrun. destruct (Hacc _ _ _ Hrun) as (? & ? & ?).
    repeat split; (done || lia).
  - cbn [foldl]. intros Hrun.
    eapply (IH _ (S n)) in Hrun.
    + destruct Hrun as (? & ? & ?). cbn [length].
      repeat split; (done || lia).
    + clear IH Hrun. intros h0 r0 h0' Hrun.
      apply M_bind_inv in Hrun as ([reports theta_out] & h1 & Hfirst & Hrun).
      apply M_bind_inv in Hrun as ([report theta] & h2 & Hpass & Hrun).
      apply mret_inv in Hrun as [-> ->].
      destruct (Hacc _ _ _ Hfirst) as (Hn & Hlen & Hsame).
      apply scan_pass_fresh_dataset in Hpass as [Hlen2 Hsame2].
      cbn [fst] in *. rewrite length_app. cbn [length].
      repeat split; [lia|lia|].
      intros l Hl. rewrite Hsame2 by lia. by apply Hsame.
Qed.

(** X17: a run of [main] that returns has built the chirp-mass grid with
    overlap 2 and the offsets with overlap 1, printed one report per offset
    and loaded one dataset per offset: the store has one more object per
    offset and the objects it had before are as they were. *)
Theorem main_one_dataset_per_offset (model_metadata : Metadata F)
    (event_data : string) (num_samples : Z)
    (time_scan_range : option (F * F)) (h h' : list (EventDataset F W))
    (reports : list (Report F)) (theta_out : list (Row F)) :
  run model_metadata event_data num_samples time_scan_range h
  = Ok ((reports, theta_out), h') →
  ∃ chirp_masses times,
    get_scan_chirp_masses model_metadata (of_int 2) = Ok chirp_masses
    ∧ get_scan_times model_metadata time_scan_range (of_int 1) = Ok times
    ∧ length reports = length times
    ∧ length h' = (length h + length times)%nat
    ∧ ∀ l, (l < length h)%nat → h' !! l = h !! l.
Proof.
  unfold main. intros Hrun.
  apply M_bind_inv in Hrun as (cms & h1 & [Hcms ->]%lift_inv & Hrun).
  apply M_bind_inv in Hrun as (times & h2 & [Htimes ->]%lift_inv & Hrun).
  exists cms, times. split; [done|]. split; [done|].
  apply (main_loop_frame _ _ _ _ _ 0) in Hrun; [done|].
  intros h0 r h0' [-> ->]%mret_inv. simpl. repeat split; (done || lia).
Qed.

(** X18: without a time-scan window [main] is a single pass with no
    offset, and when it returns the one dataset it has added to the store is
    the content of the event file, not translated. *)
Theorem main_without_time_scan (model_metadata : Metadata F)
    (event_data : string) (num_samples : Z) (chirp_masses : list F)
    (h : list (EventDataset F W)) :
  get_scan_chirp_masses model_metadata (of_int 2) = Ok chirp_masses →
  run model_metadata event_data num_samples None h
  = (pass event_data chirp_masses num_samples None
     ≫= λ '(report, theta), mret ([report], theta)) h
  ∧ ∀ r h',
      run model_metadata event_data num_samples None h = Ok (r, h') →
      ∃ o report theta,
        event_file event_data = Ok o
        ∧ h' = h ++ [o]
        ∧ r = ([report], theta).
Proof.
  intros Hcms.
  assert (run model_metadata event_data num_samples None h
          = (pass event_data chirp_masses num_samples None
             ≫= λ '(report, theta), mret ([report], theta)) h) as Heq.
  { unfold main, lift. rewrite Hcms. unfold mbind, M_bind.
    cbn [get_scan_times foldl mret M_ret].
    by destruct (scan_pass _ _ _ _ _ _ _ _ _ _ _ _ h)
      as [[[report theta] h1]|]. }
  split; [done|]. intros r h' Hrun. rewrite Heq in Hrun.
  apply M_bind_inv in Hrun as ([report theta] & h1 & Hpass & Hrun).
  apply mret_inv in Hrun as [-> ->].
  unfold scan_pass in Hpass.
  apply M_bind_inv in Hpass as (l0 & h0 & Hnew & Hpass).
  unfold EventDataset_new in Hnew.
  destruct (event_file event_data) as [o|]; simplify_eq.
  apply M_bind_inv in Hpass as ([] & h2 & [_ ->]%mret_inv & Hpass).
  apply M_bind_inv in Hpass as (o1 & h3 & [_ ->]%deref_inv & Hpass).
  apply M_bind_inv in Hpass as ([w c] & h4 & [_ ->]%lift_inv & Hpass).
  apply M_bind_inv in Hpass as (s1 & h5 & [_ ->]%lift_inv & Hpass).
  apply M_bind_inv in Hpass as (s2 & h6 & [_ ->]%lift_inv & Hpass).
  apply M_bind_inv in Hpass as (s3 & h7 & [_ ->]%lift_inv & Hpass).
  apply lift_inv in Hpass as [_ ->].
  by exists o, report, theta.
Qed.

End MainMore.

(** X17 on a run over the two offsets [-0.1] and [0.1], from an empty
    store. *)
Lemma main_one_dataset_per_offset_witness :
  ∃ reports theta_out h',
    main Fixture.rotate Fixture.event_file Fixture.transform_pre Fixture.zero
      Fixture.model_sample Fixture.transform_post Fixture.ln_prob_inside
      Fixture.evaluate Fixture.small_float "event.hdf5" 1
      (Some (- Fixture.tenth, Fixture.tenth)%float) []
    = Ok ((reports, theta_out), h')
    ∧ length reports = 2%nat
    ∧ length h' = 2%nat.
Proof.
  destruct (main Fixture.rotate Fixture.event_file Fixture.transform_pre
              Fixture.zero Fixture.model_sample Fixture.transform_post
              Fixture.ln_prob_inside Fixture.evaluate Fixture.small_float
              "event.hdf5" 1 (Some (- Fixture.tenth, Fixture.tenth)%float) [])
    as [[[reports theta_out] h']|e] eqn:Hrun.
  - destruct (main_one_dataset_per_offset _ _ _ _ _ _ _ _ _ _ _ _ _ _ _ _
                Hrun)
      as (cms & times & _ & Htimes & Hreports & Hlen & _).
    clear Hrun. vm_compute in Htimes. injection Htimes as <-.
    exists reports, theta_out, h'. split; [reflexivity|].
    split; [exact Hreports|exact Hlen].
  - apply (f_equal is_Ok) in Hrun. vm_compute in Hrun. discriminate.
Defined.

(** X18 on a run without a window, from an empty store. *)
Lemma main_without_time_scan_witness :
  ∃ chirp_masses,
    get_scan_chirp_masses Fixture.small_float (of_int 2) = Ok chirp_masses
    ∧ main Fixture.rotate Fixture.event_file Fixture.transform_pre
        Fixture.zero Fixture.model_sample Fixture.transform_post
        Fixture.ln_prob_inside Fixture.evaluate Fixture.small_float
        "event.hdf5" 1 None []
      = (scan_pass Fixture.rotate Fixture.event_file Fixture.transform_pre
           Fixture.zero Fixture.model_sample Fixture.transform_post
           Fixture.ln_prob_inside Fixture.evaluate "event.hdf5" chirp_masses
           1 None
         ≫= λ '(report, theta), mret ([report], theta)) [].
Proof.
  eexists. split; [vm_compute; reflexivity|].
  apply (main_without_time_scan Fixture.rotate Fixture.event_file
           Fixture.transform_pre Fixture.zero Fixture.model_sample
           Fixture.transform_post Fixture.ln_prob_inside Fixture.evaluate
           Fixture.small_float "event.hdf5" 1).
  vm_compute. reflexivity.
Defined.

(** ** The sequence of transforms and the wrapped flow *)

Section MapM.
Context {A B : Type}.

Lemma mapM_Ok (f : A → result B) (l : list A) :
  (∀ x, x ∈ l → ∃ y, f x = Ok y) →
  ∃ ys, mapM f l = Ok ys
        ∧ length ys = length l
        ∧ ∀ (i : nat) x, l !! i = Some x →
            ∃ y, f x = Ok y ∧ ys !! i = Some y.
Proof.
  induction l as [|x l IH]; intros Hall.
  - exists []. split; [done|]. split; [done|]. by intros [|i] x Hx.
  - destruct (Hall x) as [y Hy]; [by left|].
    destruct IH as (ys & Hys & Hlen & Hrows).
    { intros z Hz. apply Hall. by right. }
    exists (y :: ys). split; [|split].
    + cbn [mapM]. by rewrite Hy, Hys.
    + simpl. lia.
    + intros [|i] z Hz; simplify_eq/=; eauto.
Qed.

End MapM.

Section TransformMore.
Context {R Act : Type}.
Variable get_activation_function_from_string : string → result Act.
Variable create_alternating_binary_mask : Z → bool → list Z.

Lemma create_base_transform_supported (i param_dim : Z)
    (context_dim : option Z) (kw : Nsf.BaseTransformKwargs R)
    (activation_fn : Act) :
  Nsf.base_transform_type kw = "rq-coupling"
  ∨ Nsf.base_transform_type kw = "rq-autoregressive" →
  get_activation_function_from_string (Nsf.activation kw)
  = Ok activation_fn →
  ∃ base, Nsf.create_base_transform get_activation_function_from_string
            create_alternating_binary_mask i param_dim context_dim kw
          = Ok base.
Proof.
  intros Htag Hact. unfold Nsf.create_base_transform. rewrite Hact.
  cbn [mbind result_bind]. destruct Htag as [->| ->]; by eexists.
Qed.

(** X19: with a supported mode tag and a resolved activation the builder
    of the sequence returns [num_flow_steps] blocks followed by one linear
    transform; block [k] is the linear transform followed by the base
    transform that [create_base_transform] builds for the index [k]. *)
Theorem create_transform_steps (num_flow_steps param_dim : Z)
    (context_dim : option Z) (kw : Nsf.BaseTransformKwargs R)
    (activation_fn : Act) :
  Nsf.base_transform_type kw = "rq-coupling"
  ∨ Nsf.base_transform_type kw = "rq-autoregressive" →
  get_activation_function_from_string (Nsf.activation kw)
  = Ok activation_fn →
  ∃ steps,
    Nsf.create_transform get_activation_function_from_string
      create_alternating_binary_mask num_flow_steps param_dim context_dim kw
    = Ok (Nsf.CompositeTransform
            (steps ++ [Nsf.create_linear_transform param_dim]))
    ∧ length steps = Z.to_nat num_flow_steps
    ∧ ∀ k, 0 ≤ k < num_flow_steps →
        ∃ base,
          Nsf.create_base_transform get_activation_function_from_string
            create_alternating_binary_mask k param_dim context_dim kw
          = Ok base
          ∧ steps !! Z.to_nat k
            = Some (Nsf.CompositeTransform
                      [Nsf.create_linear_transform param_dim; base]).
Proof.
  intros Htag Hact. unfold Nsf.create_transform.
  edestruct (mapM_Ok
    (λ i, base ← Nsf.create_base_transform
                   get_activation_function_from_string
                   create_alternating_binary_mask i param_dim context_dim kw;
          Ok (Nsf.CompositeTransform
                [Nsf.create_linear_transform param_dim; base]))
    (seqZ 0 num_flow_steps)) as (steps & Hsteps & Hlen & Hrows).
  { intros i _.
    destruct (create_base_transform_supported i param_dim context_dim kw
                activation_fn Htag Hact) as [base Hbase].
    rewrite Hbase. by eexists. }
  exists steps. rewrite Hsteps. split; [done|].
  split; [by rewrite Hlen, length_seqZ|].
  intros k Hk.
  destruct (Hrows (Z.to_nat k) k) as (step & Hstep & Hlookup).
  { rewrite lookup_seqZ. lia. }
  destruct (create_base_transform_supported k param_dim context_dim kw
              activation_fn Htag Hact) as [base Hbase].
  exists base. split; [done|]. rewrite Hbase in Hstep.
  cbn [mbind result_bind] in Hstep. by simplify_eq.
Qed.

(** X20: without a flow step to build, the builder of the sequence returns
    the final linear transform alone and looks neither at the mode tag nor
    at the activation: an unsupported tag goes unnoticed. *)
Theorem create_transform_no_steps (num_flow_steps param_dim : Z)
    (context_dim : option Z) (kw : Nsf.BaseTransformKwargs R) :
  num_flow_steps ≤ 0 →
  Nsf.create_transform get_activation_function_from_string
    create_alternating_binary_mask num_flow_steps param_dim context_dim kw
  = Ok (Nsf.CompositeTransform [Nsf.create_linear_transform param_dim]).
Proof.
  intros Hn. unfold Nsf.create_transform. by rewrite seqZ_nil.
Qed.

(** X21: with at least one flow step, an unsupported mode tag makes the
    builder of the sequence raise, with [ValueError] once the activation is
    resolved: it returns no sequence of transforms. *)
Theorem create_transform_rejects_tag (num_flow_steps param_dim : Z)
    (context_dim : option Z) (kw : Nsf.BaseTransformKwargs R) :
  Nsf.base_transform_type kw ≠ "rq-coupling" →
  Nsf.base_transform_type kw ≠ "rq-autoregressive" →
  0 < num_flow_steps →
  (∃ e, Nsf.create_transform get_activation_function_from_string
          create_alternating_binary_mask num_flow_steps param_dim
          context_dim kw = Raise e)
  ∧ ∀ activation_fn,
      get_activation_function_from_string (Nsf.activation kw)
      = Ok activation_fn →
      Nsf.create_transform get_activation_function_from_string
        create_alternating_binary_mask num_flow_steps param_dim context_dim
        kw = Raise ValueError.
Proof.
  intros Hc Ha Hsteps. unfold Nsf.create_transform.
  rewrite seqZ_cons by done. cbn [mapM]. split.
  - destruct (create_base_transform_unsupported
                get_activation_function_from_string
                create_alternating_binary_mask 0 param_dim context_dim kw
                Hc Ha) as [e He].
    rewrite He. by exists e.
  - intros f Hf. unfold Nsf.create_base_transform. rewrite Hf.
    apply String.eqb_neq in Hc, Ha. by rewrite Hc, Ha.
Qed.

(** X22: the base transform depends on the index of its block through the
    parity of the index only, and not at all for the autoregressive
    transform or for a one-dimensional parameter space: there every block
    gets the same base transform. *)
Theorem create_base_transform_parity (param_dim : Z)
    (context_dim : option Z) (kw : Nsf.BaseTransformKwargs R) :
  (∀ i,
     Nsf.create_base_transform get_activation_function_from_string
       create_alternating_binary_mask (i + 2) param_dim context_dim kw
     = Nsf.create_base_transform get_activation_function_from_string
         create_alternating_binary_mask i param_dim context_dim kw)
  ∧ (Nsf.base_transform_type kw ≠ "rq-coupling" ∨ param_dim = 1 →
     ∀ i j,
       Nsf.create_base_transform get_activation_function_from_string
         create_alternating_binary_mask i param_dim context_dim kw
       = Nsf.create_base_transform get_activation_function_from_string
           create_alternating_binary_mask j param_dim context_dim kw).
Proof.
  split.
  - intros i. unfold Nsf.create_base_transform.
    replace ((i + 2) mod 2) with (i mod 2); [done|].
    by rewrite <- (Z.mod_add i 1 2).
  - intros Hcase i j. unfold Nsf.create_base_transform.
    destruct (get_activation_function_from_string _); [|done].
    cbn [mbind result_bind]. destruct Hcase as [Hc| ->].
    + apply String.eqb_neq in Hc. by rewrite Hc.
    + done.
Qed.

End TransformMore.

Section SqueezeMore.
Context {X E Y A : Type}.

Lemma numel_squeeze (shape : list nat) :
  numel (filter (λ d, d ≠ 1%nat) shape) = numel shape.
Proof.
  induction shape as [|d shape IH]; [done|].
  rewrite filter_cons. case_decide as Hd; simpl.
  - by rewrite IH.
  - assert (d = 1%nat) as -> by lia. rewrite IH. lia.
Qed.

(** X23: a tensor that [sample] returns has no dimension of size one, and
    it has the entries of the tensor the flow returned, as many as its own
    shape announces whenever that held for the flow output. *)
Theorem sample_no_unit_dimension (self : Nsf.FlowWrapper X E Y A)
    (x : list X) (num_samples : Z) (t' : Nsf.Tensor A) :
  Nsf.sample self x num_samples = Ok t' →
  Forall (λ d, d ≠ 1%nat) (Nsf.shape t')
  ∧ ∃ context t,
      Nsf.embed self x = Ok context
      ∧ Nsf.flow_sample self num_samples context = Ok t
      ∧ Nsf.flat t' = Nsf.flat t
      ∧ numel (Nsf.shape t') = numel (Nsf.shape t)
      ∧ (length (Nsf.flat t) = numel (Nsf.shape t) →
         length (Nsf.flat t') = numel (Nsf.shape t')).
Proof.
  unfold Nsf.sample. intros Hrun.
  destruct (Nsf.embed self x) as [context|]; [|done].
  cbn [mbind result_bind] in Hrun.
  destruct (Nsf.flow_sample self num_samples context) as [t|] eqn:Hflow;
    [|done].
  cbn [mbind result_bind] in Hrun. injection Hrun as <-.
  unfold Nsf.squeeze. cbn [Nsf.shape Nsf.flat]. split.
  - apply Forall_forall. intros d Hd%list_elem_of_filter. tauto.
  - exists context, t. rewrite numel_squeeze. by repeat split.
Qed.

End SqueezeMore.

(** X19 on three coupling blocks in a four-dimensional parameter space. *)
Lemma create_transform_steps_witness :
  ∃ steps,
    Nsf.create_transform Fixture.relu_only Fixture.alternating 3 4 (Some 128)
      (Fixture.kwargs "rq-coupling")
    = Ok (Nsf.CompositeTransform (steps ++ [Nsf.create_linear_transform 4]))
    ∧ length steps = 3%nat.
Proof.
  destruct (create_transform_steps Fixture.relu_only Fixture.alternating 3 4
              (Some 128) (Fixture.kwargs "rq-coupling") "relu"%string)
    as (steps & Hrun & Hlen & _).
  - left. reflexivity.
  - reflexivity.
  - exists steps. split; assumption.
Defined.

(** X20 on no flow step and the tag ['rq-spline']. *)
Lemma create_transform_no_steps_witness :
  Nsf.create_transform Fixture.relu_only Fixture.alternating 0 4 (Some 128)
    (Fixture.kwargs "rq-spline")
  = Ok (Nsf.CompositeTransform [Nsf.create_linear_transform 4]).
Proof.
  apply (create_transform_no_steps Fixture.relu_only Fixture.alternating 0 4
           (Some 128) (Fixture.kwargs "rq-spline")).
  discriminate.
Defined.

(** X21 on three flow steps and the tag ['rq-spline']. *)
Lemma create_transform_rejects_tag_witness :
  Nsf.create_transform Fixture.relu_only Fixture.alternating 3 4 (Some 128)
    (Fixture.kwargs "rq-spline")
  = Raise ValueError.
Proof.
  refine (proj2 (create_transform_rejects_tag Fixture.relu_only
                   Fixture.alternating 3 4 (Some 128)
                   (Fixture.kwargs "rq-spline") _ _ _) "relu"%string _);
    first [discriminate|reflexivity].
Defined.

(** X22 on the autoregressive transform, for the blocks 0 and 1. *)
Lemma create_base_transform_parity_witness :
  Nsf.create_base_transform Fixture.relu_only Fixture.alternating 0 4
    (Some 128) (Fixture.kwargs "rq-autoregressive")
  = Nsf.create_base_transform Fixture.relu_only Fixture.alternating 1 4
      (Some 128) (Fixture.kwargs "rq-autoregressive").
Proof.
  apply (proj2 (create_base_transform_parity Fixture.relu_only
                  Fixture.alternating 4 (Some 128)
                  (Fixture.kwargs "rq-autoregressive"))).
  left. discriminate.
Defined.

(** X23 on two context rows with two samples each in a one-dimensional
    parameter space. *)
Lemma sample_no_unit_dimension_witness :
  ∃ t',
    Nsf.sample (Fixture.flow 1) [Fixture.context 2] 2 = Ok t'
    ∧ Forall (λ d, d ≠ 1%nat) (Nsf.shape t')
    ∧ length (Nsf.flat t') = numel (Nsf.shape t').
Proof.
  eexists. split; [reflexivity|].
  edestruct (sample_no_unit_dimension (Fixture.flow 1) [Fixture.context 2] 2)
    as (Hdims & context & t & Hembed & Hflow & _ & _ & Hlen);
    [reflexivity|].
  split; [exact Hdims|]. apply Hlen. clear Hlen Hdims.
  vm_compute in Hembed. injection Hembed as <-.
  vm_compute in Hflow. injection Hflow as <-. reflexivity.
Defined.
